(** * Order-and-inventory ledger of the POS system (src/app.py)

    A shallow embedding of the database helper functions of [app.py]
    (order creation and completion, menu maintenance, stock adjustment)
    and of the two HTTP handlers that wrap them, over an explicit model of
    the SQLite database the program keeps its state in.

    Modelling conventions.
    - A table with an [INTEGER PRIMARY KEY AUTOINCREMENT] column that the
      code addresses by key ([menu_items], [orders]) is a [gmap Z row]; a
      table the code only appends to and filters ([order_items],
      [stock_history]) is a list of rows in insertion order.
    - SQLite [INTEGER] columns and Python [int]s are [Z] (both unbounded
      for the values at hand); [REAL] columns hold exact rationals [Q]:
      the functions below store and return them and never compute on them.
    - [TEXT] columns are [string]s, [NULL] is [None].
    - [datetime.now()] is an input of the function that reads it; a
      datetime is a number of microseconds.
    - Columns filled by [DEFAULT CURRENT_TIMESTAMP] and never read by the
      functions below ([menu_items.created_at], [stock_history.timestamp],
      [users.created_at]) are left out.
    - A function that writes runs in one transaction: its writes reach
      the database at [conn.commit()]. A Python exception raised before
      the commit abandons the connection, and the database is unchanged. *)

From Stdlib Require Import ZArith QArith.
From stdpp Require Import gmap strings list fin_maps pretty.

Local Open Scope Z_scope.

(** ** Rows *)

Record User := {
  u_id : Z;
  u_username : string;
  u_password : string;
  u_role : string
}.

(** A [menu_items] row; its [id] is the key it is stored under. *)
Record MenuItem := {
  mi_name : string;
  mi_price : Q;
  mi_category : string;
  mi_stock : Z;
  mi_requires_side : Z
}.

(** An [orders] row; its [id] is the key it is stored under. *)
Record Order := {
  o_customer_name : string;
  o_total : Q;
  o_status : string;
  o_payment_method : string;
  o_timestamp : Z;
  o_ready_time : option Z;
  o_completed_at : option Z;
  o_cashier_id : option Z
}.

Record OrderItem := {
  oi_id : Z;
  oi_order_id : Z;
  oi_menu_item_id : Z;
  oi_menu_item_name : string;
  oi_quantity : Z;
  oi_price : Q;
  oi_side_option : option string
}.

Record StockHistory := {
  sh_id : Z;
  sh_menu_item_id : Z;
  sh_menu_item_name : string;
  sh_quantity_change : Z;
  sh_stock_before : Z;
  sh_stock_after : Z;
  sh_change_type : string;
  sh_notes : option string;
  sh_puncher_id : option Z
}.

(** One element of the [items] list of a POST /api/orders payload. The
    code reads [item['id']], [item['name']], [item['quantity']],
    [item['price']] and [item.get('side_option', None)]. *)
Record CartLine := {
  cl_id : Z;
  cl_name : string;
  cl_quantity : Z;
  cl_price : Q;
  cl_side_option : option string
}.

(** ** The database *)

(** The five tables, and for each AUTOINCREMENT table the [seq] value
    SQLite keeps for it in [sqlite_sequence]. *)
Record DB := {
  users : list User;
  users_seq : Z;
  menu_items : gmap Z MenuItem;
  menu_items_seq : Z;
  orders : gmap Z Order;
  orders_seq : Z;
  order_items : list OrderItem;
  order_items_seq : Z;
  stock_history : list StockHistory;
  stock_history_seq : Z
}.

(** Largest key of a keyed table, 0 when it is empty. *)
Definition max_key {A} (m : gmap Z A) : Z :=
  map_fold (fun k _ acc => Z.max k acc) 0 m.

(** Largest id of a list of rows, 0 when it is empty. *)
Definition max_id {A} (id : A → Z) (l : list A) : Z :=
  foldr (fun r acc => Z.max (id r) acc) 0 l.

(** The rowid AUTOINCREMENT gives the next row: one more than the largest
    rowid the table ever held. *)
Definition next_rowid (seq largest : Z) : Z := Z.max seq largest + 1.

(** ** Statements *)

Definition set_menu_items (f : gmap Z MenuItem → gmap Z MenuItem) (db : DB) : DB :=
  {| users := users db;
     users_seq := users_seq db;
     menu_items := f (menu_items db);
     menu_items_seq := menu_items_seq db;
     orders := orders db;
     orders_seq := orders_seq db;
     order_items := order_items db;
     order_items_seq := order_items_seq db;
     stock_history := stock_history db;
     stock_history_seq := stock_history_seq db |}.

Definition set_orders (f : gmap Z Order → gmap Z Order) (db : DB) : DB :=
  {| users := users db;
     users_seq := users_seq db;
     menu_items := menu_items db;
     menu_items_seq := menu_items_seq db;
     orders := f (orders db);
     orders_seq := orders_seq db;
     order_items := order_items db;
     order_items_seq := order_items_seq db;
     stock_history := stock_history db;
     stock_history_seq := stock_history_seq db |}.

(** [SET stock = ?] on a [menu_items] row. *)
Definition set_stock (s : Z) (r : MenuItem) : MenuItem :=
  {| mi_name := mi_name r;
     mi_price := mi_price r;
     mi_category := mi_category r;
     mi_stock := s;
     mi_requires_side := mi_requires_side r |}.

(** [SET name = ?, price = ?, category = ?, requires_side = ?] on a
    [menu_items] row. *)
Definition set_details (name : string) (price : Q) (category : string)
    (requires_side : Z) (r : MenuItem) : MenuItem :=
  {| mi_name := name;
     mi_price := price;
     mi_category := category;
     mi_stock := mi_stock r;
     mi_requires_side := requires_side |}.

(** [SET status = 'ready', completed_at = ?] on an [orders] row. *)
Definition mark_ready (now : Z) (o : Order) : Order :=
  {| o_customer_name := o_customer_name o;
     o_total := o_total o;
     o_status := "ready";
     o_payment_method := o_payment_method o;
     o_timestamp := o_timestamp o;
     o_ready_time := o_ready_time o;
     o_completed_at := Some now;
     o_cashier_id := o_cashier_id o |}.

(** [INSERT INTO menu_items (name, price, category, stock, requires_side)];
    returns [cursor.lastrowid] with the new database. *)
Definition insert_menu_item (r : MenuItem) (db : DB) : Z * DB :=
  let id := next_rowid (menu_items_seq db) (max_key (menu_items db)) in
  (id,
   {| users := users db;
      users_seq := users_seq db;
      menu_items := <[id := r]> (menu_items db);
      menu_items_seq := id;
      orders := orders db;
      orders_seq := orders_seq db;
      order_items := order_items db;
      order_items_seq := order_items_seq db;
      stock_history := stock_history db;
      stock_history_seq := stock_history_seq db |}).

(** [INSERT INTO orders (...)]; returns [cursor.lastrowid]. *)
Definition insert_order (r : Order) (db : DB) : Z * DB :=
  let id := next_rowid (orders_seq db) (max_key (orders db)) in
  (id,
   {| users := users db;
      users_seq := users_seq db;
      menu_items := menu_items db;
      menu_items_seq := menu_items_seq db;
      orders := <[id := r]> (orders db);
      orders_seq := id;
      order_items := order_items db;
      order_items_seq := order_items_seq db;
      stock_history := stock_history db;
      stock_history_seq := stock_history_seq db |}).

(** [INSERT INTO order_items (order_id, menu_item_id, menu_item_name,
    quantity, price, side_option)]. *)
Definition insert_order_item (order_id menu_item_id : Z) (name : string)
    (quantity : Z) (price : Q) (side_option : option string) (db : DB) : DB :=
  let id := next_rowid (order_items_seq db) (max_id oi_id (order_items db)) in
  {| users := users db;
     users_seq := users_seq db;
     menu_items := menu_items db;
     menu_items_seq := menu_items_seq db;
     orders := orders db;
     orders_seq := orders_seq db;
     order_items :=
       order_items db ++
       [ {| oi_id := id; oi_order_id := order_id;
            oi_menu_item_id := menu_item_id; oi_menu_item_name := name;
            oi_quantity := quantity; oi_price := price;
            oi_side_option := side_option |} ];
     order_items_seq := id;
     stock_history := stock_history db;
     stock_history_seq := stock_history_seq db |}.

(** [INSERT INTO stock_history (menu_item_id, menu_item_name,
    quantity_change, stock_before, stock_after, change_type, puncher_id,
    notes)]. The INSERT of [create_order_db] names no [puncher_id] column:
    it passes [None] here, the column's default NULL. *)
Definition insert_stock_history (menu_item_id : Z) (name : string)
    (quantity_change stock_before stock_after : Z) (change_type : string)
    (puncher_id : option Z) (notes : string) (db : DB) : DB :=
  let id := next_rowid (stock_history_seq db) (max_id sh_id (stock_history db)) in
  {| users := users db;
     users_seq := users_seq db;
     menu_items := menu_items db;
     menu_items_seq := menu_items_seq db;
     orders := orders db;
     orders_seq := orders_seq db;
     order_items := order_items db;
     order_items_seq := order_items_seq db;
     stock_history :=
       stock_history db ++
       [ {| sh_id := id; sh_menu_item_id := menu_item_id;
            sh_menu_item_name := name;
            sh_quantity_change := quantity_change;
            sh_stock_before := stock_before; sh_stock_after := stock_after;
            sh_change_type := change_type; sh_notes := Some notes;
            sh_puncher_id := puncher_id |} ];
     stock_history_seq := id |}.

(** ** get_user_id *)

(** [SELECT id FROM users WHERE username = ?], [fetchone()]: the id of the
    first user of that name, [None] when there is none. *)
Definition get_user_id (db : DB) (username : string) : option Z :=
  u_id <$> find (fun u => bool_decide (u_username u = username)) (users db).

(** ** Puncher functions *)

(** [add_menu_item]: inserts the item and logs its initial stock. Returns
    the new row with its id. *)
Definition add_menu_item (db : DB) (name : string) (price : Q)
    (category : string) (stock requires_side : Z) (puncher_username : string)
    : DB * option (Z * MenuItem) :=
  let puncher_id := get_user_id db puncher_username in
  let '(item_id, db1) :=
    insert_menu_item
      {| mi_name := name; mi_price := price; mi_category := category;
         mi_stock := stock; mi_requires_side := requires_side |} db in
  let db2 :=
    insert_stock_history item_id name stock 0 stock "initial" puncher_id
      "Initial stock" db1 in
  (db2, pair item_id <$> menu_items db2 !! item_id).

(** [update_menu_item]: [UPDATE menu_items SET name, price, category,
    requires_side WHERE id = ?], then re-reads the row. *)
Definition update_menu_item (db : DB) (item_id : Z) (name : string)
    (price : Q) (category : string) (requires_side : Z)
    (puncher_username : string) : DB * option (Z * MenuItem) :=
  let db1 :=
    set_menu_items
      (alter (set_details name price category requires_side) item_id) db in
  (db1, pair item_id <$> menu_items db1 !! item_id).

(** [update_stock]: returns Python's [None] (and writes nothing) when the
    item does not exist or when the stock would become negative. *)
Definition update_stock (db : DB) (item_id quantity_change : Z)
    (puncher_username notes : string) : DB * option (Z * MenuItem) :=
  let puncher_id := get_user_id db puncher_username in
  match menu_items db !! item_id with
  | None => (db, None)
  | Some item =>
    let stock_before := mi_stock item in
    let stock_after := stock_before + quantity_change in
    if bool_decide (stock_after < 0) then (db, None)
    else
      let db1 := set_menu_items (alter (set_stock stock_after) item_id) db in
      let change_type :=
        if bool_decide (quantity_change > 0) then "restock" else "adjustment" in
      let db2 :=
        insert_stock_history item_id (mi_name item) quantity_change
          stock_before stock_after change_type puncher_id notes db1 in
      (db2, pair item_id <$> menu_items db2 !! item_id)
  end.

(** The dictionary [delete_menu_item] returns. *)
Record DeleteResult := {
  success : bool;
  message : string
}.

(** [delete_menu_item]: refuses when an [order_items] row names the item;
    otherwise deletes the item and its stock history. *)
Definition delete_menu_item (db : DB) (item_id : Z) : DB * DeleteResult :=
  let orders_count :=
    Z.of_nat (length (filter (fun oi => oi_menu_item_id oi = item_id)
                             (order_items db))) in
  if bool_decide (orders_count > 0) then
    (db, {| success := false;
            message := "Cannot delete item that has been used in orders" |})
  else
    ({| users := users db;
        users_seq := users_seq db;
        menu_items := delete item_id (menu_items db);
        menu_items_seq := menu_items_seq db;
        orders := orders db;
        orders_seq := orders_seq db;
        order_items := order_items db;
        order_items_seq := order_items_seq db;
        stock_history :=
          filter (fun sh => sh_menu_item_id sh ≠ item_id) (stock_history db);
        stock_history_seq := stock_history_seq db |},
     {| success := true; message := "Item deleted successfully" |}).


(** ** Transactions *)

(** The Python exceptions the modelled code can raise. *)
Inductive exn :=
  | TypeError.   (* 'NoneType' object is not subscriptable *)

Inductive result (A : Type) :=
  | Returned (a : A)
  | Raised (e : exn).
Arguments Returned {A} a.
Arguments Raised {A} e.

(** Statements run on one connection before its [commit()]: each sees the
    writes of the ones before it, and an exception stops the sequence. *)
Definition Tx (A : Type) : Type := DB → result (A * DB).

#[global] Instance tx_ret : MRet Tx := λ A a db, Returned (a, db).
#[global] Instance tx_bind : MBind Tx := λ A B f t db,
  match t db with
  | Returned (a, db') => f a db'
  | Raised e => Raised e
  end.

(** A write. *)
Definition exec (f : DB → DB) : Tx unit := λ db, Returned (tt, f db).

(** An INSERT followed by [cursor.lastrowid]. *)
Definition exec_insert (f : DB → Z * DB) : Tx Z := λ db, Returned (f db).

(** A SELECT followed by [fetchone()]. *)
Definition fetchone {A} (q : DB → option A) : Tx (option A) :=
  λ db, Returned (q db, db).

(** [row[col]]: a [TypeError] when [row] is [None]. *)
Definition subscript {A B} (row : option A) (col : A → B) : Tx B :=
  λ db, match row with
        | Some r => Returned (col r, db)
        | None => Raised TypeError
        end.

(** [for x in l: body(x)]. *)
Fixpoint for_each {A} (body : A → Tx unit) (l : list A) : Tx unit :=
  match l with
  | [] => mret tt
  | x :: l' => body x ;; for_each body l'
  end.

(** ** Order functions *)

(** [timedelta(minutes=m)], in microseconds. *)
Definition timedelta_minutes (m : Z) : Z := m * 60 * 1000000.

(** The row [create_order_db] inserts into [orders]. *)
Definition pending_order (now_ts now_ready : Z) (customer_name : string)
    (total : Q) (cashier_id : option Z) (payment_method : string) : Order :=
  {| o_customer_name := customer_name;
     o_total := total;
     o_status := "pending";
     o_payment_method := payment_method;
     o_timestamp := now_ts;
     o_ready_time := Some (now_ready + timedelta_minutes 15);
     o_completed_at := None;
     o_cashier_id := cashier_id |}.

(** The body of the [for item in items] loop of [create_order_db]: the
    order line, the stock read, the stock update and the history row. *)
Definition create_order_line (order_id : Z) (item : CartLine) : Tx unit :=
  let side_option := cl_side_option item in
  let final_price := cl_price item in
  exec (insert_order_item order_id (cl_id item) (cl_name item)
          (cl_quantity item) final_price side_option) ;;
  current ← fetchone (λ db, menu_items db !! cl_id item) ;
  stock_before ← subscript current mi_stock ;
  let stock_after := stock_before - cl_quantity item in
  exec (set_menu_items
          (alter (λ r, set_stock (mi_stock r - cl_quantity item) r)
                 (cl_id item))) ;;
  exec (insert_stock_history (cl_id item) (cl_name item)
          (- cl_quantity item) stock_before stock_after "sale" None
          ("Order #" +:+ pretty order_id)).

(** The statements of [create_order_db] up to its [commit()]. [now_ts] and
    [now_ready] are the two readings of [datetime.now()]. *)
Definition create_order_tx (now_ts now_ready : Z) (customer_name : string)
    (items : list CartLine) (total : Q) (cashier_id : option Z)
    (payment_method : string) : Tx Z :=
  order_id ← exec_insert (insert_order
    (pending_order now_ts now_ready customer_name total cashier_id
       payment_method)) ;
  for_each (create_order_line order_id) items ;;
  mret order_id.

(** [create_order_db]: on an exception nothing is committed; after the
    commit the order is read back and returned with its id. *)
Definition create_order_db (db : DB) (now_ts now_ready : Z)
    (customer_name : string) (items : list CartLine) (total : Q)
    (cashier_username : string) (payment_method : string)
    : DB * result (Z * Order) :=
  let cashier_id := get_user_id db cashier_username in
  match create_order_tx now_ts now_ready customer_name items total
          cashier_id payment_method db with
  | Raised e => (db, Raised e)
  | Returned (order_id, db') =>
    match orders db' !! order_id with
    | Some order => (db', Returned (order_id, order))
    | None => (db', Raised TypeError)
    end
  end.

(** [complete_order_db]: [UPDATE orders SET status = 'ready',
    completed_at = now WHERE id = ?], then re-reads the row. *)
Definition complete_order_db (db : DB) (now : Z) (order_id : Z)
    : DB * option (Z * Order) :=
  let db1 := set_orders (alter (mark_ready now) order_id) db in
  (db1, pair order_id <$> orders db1 !! order_id).

(** ** HTTP handlers *)

(** The Flask session: a dictionary of strings. *)
Abbreviation Session := (gmap string string).

(** The JSON bodies of the two handlers. *)
Inductive Body :=
  | JError (error : string)                 (* {'error': ...} *)
  | JSuccessOrder (order : Z * Order)       (* {'success': True, 'order': ...} *)
  | JSuccessItem (item : Z * MenuItem).     (* {'success': True, 'item': ...} *)

Record Response := {
  status_code : Z;
  body : Body
}.

(** ['username' not in session or session.get('role') != r]. *)
Definition unauthorized (session : Session) (r : string) : bool :=
  bool_decide (session !! "username" = None) ||
  bool_decide (session !! "role" ≠ Some r).

(** PUT /api/orders/<order_id>/complete. *)
Definition complete_order (db : DB) (session : Session) (now : Z)
    (order_id : Z) : DB * Response :=
  if unauthorized session "kitchen" then
    (db, {| status_code := 401; body := JError "Unauthorized" |})
  else
    let '(db', order) := complete_order_db db now order_id in
    match order with
    | Some o => (db', {| status_code := 200; body := JSuccessOrder o |})
    | None => (db', {| status_code := 404; body := JError "Order not found" |})
    end.

(** The JSON payload of PUT /api/puncher/stock/<item_id>: a key that is
    absent is [None]. *)
Record StockRequest := {
  quantityChange : option Z;
  notes : option string
}.

(** PUT /api/puncher/stock/<item_id>. *)
Definition puncher_update_stock (db : DB) (session : Session)
    (data : StockRequest) (item_id : Z) : DB * Response :=
  if unauthorized session "puncher" then
    (db, {| status_code := 401; body := JError "Unauthorized" |})
  else
    let notes := default "" (notes data) in
    match quantityChange data with
    | None =>
      (db, {| status_code := 400; body := JError "Missing quantity change" |})
    | Some quantity_change =>
      let username := default "" (session !! "username") in
      let '(db', item) :=
        update_stock db item_id quantity_change username notes in
      match item with
      | Some i => (db', {| status_code := 200; body := JSuccessItem i |})
      | None =>
        (db', {| status_code := 400;
                 body := JError "Failed to update stock. Stock cannot be negative." |})
      end
    end.

(** ** init_db *)

(** [INSERT INTO users (username, password, role)]. *)
Definition insert_user (username password role : string) (db : DB) : DB :=
  let id := next_rowid (users_seq db) (max_id u_id (users db)) in
  {| users :=
       users db ++
       [ {| u_id := id; u_username := username; u_password := password;
            u_role := role |} ];
     users_seq := id;
     menu_items := menu_items db;
     menu_items_seq := menu_items_seq db;
     orders := orders db;
     orders_seq := orders_seq db;
     order_items := order_items db;
     order_items_seq := order_items_seq db;
     stock_history := stock_history db;
     stock_history_seq := stock_history_seq db |}.

Definition default_users : list (string * string * string) :=
  [ ("cashier", "cash123", "cashier");
    ("kitchen", "cook123", "kitchen");
    ("admin", "admin123", "admin");
    ("puncher", "stock123", "puncher") ].

Definition menu_row (name : string) (price : Q) (category : string)
    (stock requires_side : Z) : MenuItem :=
  {| mi_name := name; mi_price := price; mi_category := category;
     mi_stock := stock; mi_requires_side := requires_side |}.

Definition default_menu : list MenuItem :=
  [ menu_row "Boiled Beef" 120 "Meat" 50 1;
    menu_row "Usu" 100 "Meat" 40 1;
    menu_row "Fried Liver (Isibindi)" 95 "Meat" 45 1;
    menu_row "Fried Thumbu" 90 "Meat" 35 1;
    menu_row "Braaied Beef" 130 "Meat" 40 1;
    menu_row "Braaied Pork" 125 "Meat" 35 1;
    menu_row "Braaied Wors" 80 "Meat" 50 1;
    menu_row "Inqina" 95 "Meat" 30 1;
    menu_row "Fried Inhliziyo" 105 "Meat" 30 1;
    menu_row "Uphuthu" 20 "Sides" 100 0;
    menu_row "Jeqe" 30 "Sides" 100 0;
    menu_row "Chakalaka" 20 "Sides" 80 0;
    menu_row "Salad" 30 "Sides" 50 0;
    menu_row "Soft Drink" 15 "Drinks" 120 0;
    menu_row "Beer" 25 "Drinks" 90 0 ].

(** [init_db]: the tables exist in every [DB]; the default users, the
    puncher and the default menu are inserted where they are missing. *)
Definition init_db (db : DB) : DB :=
  let db1 :=
    if bool_decide (length (users db) = 0%nat) then
      foldl (λ d '(u, p, r), insert_user u p r d) db default_users
    else db in
  let db2 :=
    if bool_decide
         (length (filter (λ u, u_role u = "puncher") (users db1)) = 0%nat)
    then insert_user "puncher" "stock123" "puncher" db1
    else db1 in
  if bool_decide (size (menu_items db2) = 0%nat) then
    foldl (λ d r, (insert_menu_item r d).2) db2 default_menu
  else db2.

(** The database file before its first use. *)
Definition empty_db : DB :=
  {| users := []; users_seq := 0;
     menu_items := ∅; menu_items_seq := 0;
     orders := ∅; orders_seq := 0;
     order_items := []; order_items_seq := 0;
     stock_history := []; stock_history_seq := 0 |}.

(** The database after the first start of the application. *)
Definition fresh_db : DB := init_db empty_db.

(** ** Operations *)

(** The mutating calls of the ledger, with the arguments and the clock
    readings each one takes. *)
Inductive Op :=
  | SubmitOrder (now_ts now_ready : Z) (customer_name : string)
      (items : list CartLine) (total : Q) (cashier_username : string)
      (payment_method : string)
  | CompleteOrder (now order_id : Z)
  | AddItem (name : string) (price : Q) (category : string)
      (stock requires_side : Z) (puncher_username : string)
  | EditItem (item_id : Z) (name : string) (price : Q) (category : string)
      (requires_side : Z) (puncher_username : string)
  | AdjustStock (item_id quantity_change : Z) (puncher_username notes : string)
  | DeleteItem (item_id : Z).

(** The committed database after an operation. *)
Definition step (db : DB) (op : Op) : DB :=
  match op with
  | SubmitOrder now_ts now_ready customer_name items total cashier pm =>
    (create_order_db db now_ts now_ready customer_name items total cashier pm).1
  | CompleteOrder now order_id => (complete_order_db db now order_id).1
  | AddItem name price category stock requires_side puncher =>
    (add_menu_item db name price category stock requires_side puncher).1
  | EditItem item_id name price category requires_side puncher =>
    (update_menu_item db item_id name price category requires_side puncher).1
  | AdjustStock item_id quantity_change puncher notes =>
    (update_stock db item_id quantity_change puncher notes).1
  | DeleteItem item_id => (delete_menu_item db item_id).1
  end.

(** The database after a sequence of operations. *)
Definition run (db : DB) (ops : list Op) : DB := foldl step db ops.

(** ** Properties of the ledger *)

(** A history row whose three stock columns agree. *)
Definition balanced (sh : StockHistory) : Prop :=
  sh_stock_after sh = sh_stock_before sh + sh_quantity_change sh.

(** No menu item has negative stock. *)
Definition stock_nonneg (db : DB) : Prop :=
  map_Forall (λ _ r, 0 ≤ mi_stock r) (menu_items db).

(** Units of item [i] in a cart. *)
Definition sold (i : Z) (items : list CartLine) : Z :=
  foldr (λ cl acc, if bool_decide (cl_id cl = i) then cl_quantity cl + acc
                   else acc) 0 items.

(** Every cart line names a menu item that exists. *)
Definition valid_cart (db : DB) (items : list CartLine) : Prop :=
  Forall (λ cl, is_Some (menu_items db !! cl_id cl)) items.

(** The order line [create_order_db] writes for a cart line. *)
Definition line_of (order_id : Z) (cl : CartLine) (oi : OrderItem) : Prop :=
  oi_order_id oi = order_id ∧ oi_menu_item_id oi = cl_id cl ∧
  oi_menu_item_name oi = cl_name cl ∧ oi_quantity oi = cl_quantity cl ∧
  oi_price oi = cl_price cl ∧ oi_side_option oi = cl_side_option cl.

(** The history row [create_order_db] writes for a cart line. *)
Definition sale_of (order_id : Z) (cl : CartLine) (sh : StockHistory) : Prop :=
  sh_menu_item_id sh = cl_id cl ∧ sh_menu_item_name sh = cl_name cl ∧
  sh_change_type sh = "sale" ∧ sh_quantity_change sh = - cl_quantity cl ∧
  sh_stock_after sh = sh_stock_before sh - cl_quantity cl ∧
  sh_notes sh = Some ("Order #" +:+ pretty order_id) ∧
  sh_puncher_id sh = None.

(** The database after the statements of the loop body for a cart line
    whose item row is [r]. *)
Definition after_line (order_id : Z) (cl : CartLine) (r : MenuItem)
    (db : DB) : DB :=
  insert_stock_history (cl_id cl) (cl_name cl) (- cl_quantity cl)
    (mi_stock r) (mi_stock r - cl_quantity cl) "sale" None
    ("Order #" +:+ pretty order_id)
    (set_menu_items
       (alter (λ r, set_stock (mi_stock r - cl_quantity cl) r) (cl_id cl))
       (insert_order_item order_id (cl_id cl) (cl_name cl) (cl_quantity cl)
          (cl_price cl) (cl_side_option cl) db)).

(** ** Concrete inputs *)

(** Item 7 of the default menu. *)
Definition braaied_wors : MenuItem := menu_row "Braaied Wors" 80 "Meat" 50 1.

Definition cart_line (id : Z) (name : string) (quantity : Z) (price : Q)
    (side_option : option string) : CartLine :=
  {| cl_id := id; cl_name := name; cl_quantity := quantity;
     cl_price := price; cl_side_option := side_option |}.

(** Three lines on the default menu; the third asks for 51 of an item
    that has 50 in stock. *)
Definition oversold_cart : list CartLine :=
  [ cart_line 1 "Boiled Beef" 2 140 (Some "Uphuthu");
    cart_line 14 "Soft Drink" 2 15 None;
    cart_line 7 "Braaied Wors" 51 100 (Some "Uphuthu") ].

(** The first order of the day: three Braaied Wors with Uphuthu. *)
Definition wors_cart : list CartLine :=
  [ cart_line 7 "Braaied Wors" 3 100 (Some "Uphuthu") ].

Definition session_of (username role : string) : Session :=
  <["username" := username]> (<["role" := role]> ∅).

(** The default database after that first order. *)
Definition db_after_sale : DB :=
  step fresh_db (SubmitOrder 1000 2000 "Thabo" wors_cart 300 "cashier" "cash").

(** The history row of a delivery of 20 Braaied Wors after that order. *)
Definition delivery_row : StockHistory :=
  {| sh_id := 2; sh_menu_item_id := 7; sh_menu_item_name := "Braaied Wors";
     sh_quantity_change := 20; sh_stock_before := 47; sh_stock_after := 67;
     sh_change_type := "restock"; sh_notes := Some "weekly delivery";
     sh_puncher_id := Some 4 |}.

(** The database after that order and the addition of a new item (id 16,
    never ordered). *)
Definition db_with_pap : DB :=
  step db_after_sale (AddItem "Pap" 25 "Sides" 40 0 "puncher").

(** The default database after an order of 51 Braaied Wors, of which there
    are 50: item 7 is left with a stock of -1. *)
Definition db_oversold : DB :=
  step fresh_db
    (SubmitOrder 1000 2000 "Thabo"
       [cart_line 7 "Braaied Wors" 51 100 (Some "Uphuthu")] 5100
       "cashier" "cash").

(** ** The other handlers *)

(** [not s] for a value that is a string or [None]. *)
Definition falsy (s : option string) : bool :=
  match s with
  | None => true
  | Some s => bool_decide (s = "")
  end.

(** The JSON payload of POST /login. *)
Record LoginRequest := {
  lr_username : option string;
  lr_password : option string
}.

(** The JSON bodies of POST /login. *)
Inductive LoginBody :=
  | LoginSuccess (role : string)        (* {'success': True, 'role': ...} *)
  | LoginFailure (message : string).    (* {'success': False, 'message': ...} *)

(** [SELECT * FROM users WHERE username = ? AND password = ?],
    [fetchone()]; a parameter that is [None] is NULL and equals nothing. *)
Definition find_user (db : DB) (username password : option string)
    : option User :=
  find (λ u, bool_decide (Some (u_username u) = username ∧
                          Some (u_password u) = password)) (users db).

(** POST /login: the session after the request, the status and the body. *)
Definition login (db : DB) (session : Session) (data : LoginRequest)
    : Session * (Z * LoginBody) :=
  match find_user db (lr_username data) (lr_password data) with
  | Some user =>
    (<["role" := u_role user]> (<["username" := u_username user]> session),
     (200, LoginSuccess (u_role user)))
  | None => (session, (401, LoginFailure "Invalid credentials"))
  end.

(** GET /logout: [session.clear()]. *)
Definition logout (session : Session) : Session := ∅.

(** A key of a JSON object: absent, present with [null], or present with
    a value. A value that is present and not [null] has the JSON type the
    handler expects of it. *)
Inductive Field (A : Type) :=
  | Absent
  | Null
  | Given (a : A).
Arguments Absent {A}.
Arguments Null {A}.
Arguments Given {A} a.

(** [d.get(key, default)]: the default for an absent key only; [None] for
    a [null]. *)
Definition get_default {A} (f : Field A) (d : A) : option A :=
  match f with
  | Absent => Some d
  | Null => None
  | Given a => Some a
  end.

(** What a handler leaves to Flask: an exception it does not catch (the
    client gets a 500 page). [KeyError] is Python's, for [d[key]] on an
    absent key; [IntegrityError] is sqlite3's, for a NULL in a NOT NULL
    column. *)
Inductive Unhandled :=
  | UnhandledExn (e : exn)
  | KeyError
  | IntegrityError.

(** One element of the [items] list as it arrives. The code reads
    [item['price']], [item['id']], [item['name']] and [item['quantity']],
    and [item.get('side_option', None)], for which an absent key and a
    [null] are the same. *)
Record RawLine := {
  rl_id : Field Z;
  rl_name : Field string;
  rl_quantity : Field Z;
  rl_price : Field Q;
  rl_side_option : option string
}.

(** What the loop of [create_order_db] does with a line before it reads
    the stock: the four subscripts (a [KeyError] for an absent key), then
    the INSERT into [order_items], whose four columns are NOT NULL (an
    [IntegrityError] for a [null]). *)
Definition read_line (raw : RawLine) : CartLine + Unhandled :=
  match rl_price raw, rl_id raw, rl_name raw, rl_quantity raw with
  | Absent, _, _, _ | _, Absent, _, _ | _, _, Absent, _ | _, _, _, Absent =>
    inr KeyError
  | Given price, Given id, Given name, Given quantity =>
    inl {| cl_id := id; cl_name := name; cl_quantity := quantity;
           cl_price := price; cl_side_option := rl_side_option raw |}
  | _, _, _, _ => inr IntegrityError
  end.

(** The loop of [create_order_db] over the lines as they arrive: the
    first line that raises ends it. *)
Fixpoint create_order_lines (order_id : Z) (raws : list RawLine) (db : DB)
    : DB + Unhandled :=
  match raws with
  | [] => inl db
  | raw :: rest =>
    match read_line raw with
    | inr u => inr u
    | inl cl =>
      match create_order_line order_id cl db with
      | Returned (_, db') => create_order_lines order_id rest db'
      | Raised e => inr (UnhandledExn e)
      end
    end
  end.

(** [create_order_db] on the arguments the handler passes: [total] and
    [payment_method] may be [None], which the INSERT into [orders]
    refuses (both columns are NOT NULL), and the lines are as they
    arrived. On lines that have their four keys, a total and a payment
    method it is [create_order_db] above. *)
Definition create_order_db_raw (db : DB) (now_ts now_ready : Z)
    (customer_name : string) (items : list RawLine) (total : option Q)
    (cashier_username : string) (payment_method : option string)
    : DB * (Z * Order + Unhandled) :=
  let cashier_id := get_user_id db cashier_username in
  match total, payment_method with
  | Some total, Some payment_method =>
    let '(order_id, db0) :=
      insert_order
        (pending_order now_ts now_ready customer_name total cashier_id
           payment_method) db in
    match create_order_lines order_id items db0 with
    | inr u => (db, inr u)
    | inl db' =>
      match orders db' !! order_id with
      | Some order => (db', inl (order_id, order))
      | None => (db', inr (UnhandledExn TypeError))
      end
    end
  | _, _ => (db, inr IntegrityError)
  end.

(** The JSON payload of POST /api/orders. [data.get('customerName')],
    [data.get('items')] and [data.get('total')] give [None] for an absent
    key and for a [null]; [data.get('paymentMethod', 'cash')] tells them
    apart. *)
Record OrderRequest := {
  or_customerName : option string;
  or_items : option (list RawLine);
  or_total : option Q;
  or_paymentMethod : Field string
}.

(** POST /api/orders. *)
Definition create_order (db : DB) (session : Session) (now_ts now_ready : Z)
    (data : OrderRequest) : DB * (Response + Unhandled) :=
  if unauthorized session "cashier" then
    (db, inl {| status_code := 401; body := JError "Unauthorized" |})
  else
    let total := or_total data in
    let payment_method := get_default (or_paymentMethod data) "cash" in
    match or_customerName data, or_items data with
    | Some customer_name, Some (item :: rest) =>
      if bool_decide (customer_name = "") then
        (db, inl {| status_code := 400;
                    body := JError "Missing required fields" |})
      else
        let username := default "" (session !! "username") in
        match create_order_db_raw db now_ts now_ready customer_name
                (item :: rest) total username payment_method with
        | (db', inl order) =>
          (db', inl {| status_code := 200; body := JSuccessOrder order |})
        | (db', inr u) => (db', inr u)
        end
    | _, _ =>
      (db, inl {| status_code := 400;
                  body := JError "Missing required fields" |})
    end.

(** The JSON payload of POST and PUT /api/puncher/menu. The handlers test
    [name], [price] and [category], for which an absent key and a [null]
    are the same; [data.get('stock', 0)] tells them apart. A [null]
    [requiresSide] is stored as NULL by the code; the menu row here has
    no NULL and takes the column's default, 0. *)
Record ItemRequest := {
  ir_name : option string;
  ir_price : option Q;
  ir_category : option string;
  ir_stock : Field Z;
  ir_requiresSide : option Z
}.

(** POST /api/puncher/menu. With ['stock': null] the INSERT of
    [add_menu_item], the first statement of its transaction, violates
    [stock INTEGER NOT NULL], and nothing is written. *)
Definition puncher_add_item (db : DB) (session : Session)
    (data : ItemRequest) : DB * (Response + Unhandled) :=
  if unauthorized session "puncher" then
    (db, inl {| status_code := 401; body := JError "Unauthorized" |})
  else
    let stock := get_default (ir_stock data) 0 in
    let requires_side := default 0 (ir_requiresSide data) in
    match ir_price data with
    | Some price =>
      if falsy (ir_name data) || falsy (ir_category data) then
        (db, inl {| status_code := 400;
                    body := JError "Missing required fields" |})
      else
        match stock with
        | None => (db, inr IntegrityError)
        | Some stock =>
          let '(db', item) :=
            add_menu_item db (default "" (ir_name data)) price
              (default "" (ir_category data)) stock requires_side
              (default "" (session !! "username")) in
          match item with
          | Some i =>
            (db', inl {| status_code := 200; body := JSuccessItem i |})
          | None =>
            (db', inl {| status_code := 500;
                         body := JError "Failed to add item" |})
          end
        end
    | None =>
      (db, inl {| status_code := 400;
                  body := JError "Missing required fields" |})
    end.

(** PUT /api/puncher/menu/<item_id>. *)
Definition puncher_update_item (db : DB) (session : Session)
    (data : ItemRequest) (item_id : Z) : DB * Response :=
  if unauthorized session "puncher" then
    (db, {| status_code := 401; body := JError "Unauthorized" |})
  else
    let requires_side := default 0 (ir_requiresSide data) in
    match ir_price data with
    | Some price =>
      if falsy (ir_name data) || falsy (ir_category data) then
        (db, {| status_code := 400; body := JError "Missing required fields" |})
      else
        let '(db', item) :=
          update_menu_item db item_id (default "" (ir_name data)) price
            (default "" (ir_category data)) requires_side
            (default "" (session !! "username")) in
        match item with
        | Some i => (db', {| status_code := 200; body := JSuccessItem i |})
        | None =>
          (db', {| status_code := 500;
                   body := JError "Failed to update item" |})
        end
    | None =>
      (db, {| status_code := 400; body := JError "Missing required fields" |})
    end.

(** The JSON bodies of DELETE /api/puncher/menu/<item_id>. *)
Inductive DeleteBody :=
  | DeleteError (error : string)           (* {'error': ...} *)
  | DeleteAnswer (result : DeleteResult).  (* the dictionary of delete_menu_item *)

(** DELETE /api/puncher/menu/<item_id>. *)
Definition puncher_delete_item (db : DB) (session : Session) (item_id : Z)
    : DB * (Z * DeleteBody) :=
  if unauthorized session "puncher" then
    (db, (401, DeleteError "Unauthorized"))
  else
    let '(db', result) := delete_menu_item db item_id in
    if success result then (db', (200, DeleteAnswer result))
    else (db', (400, DeleteAnswer result)).

(** ** Reading an order back *)

(** One element of the ['items'] list [get_all_orders_db] attaches to an
    order: a row of its inner query. *)
Record OrderItemView := {
  v_name : string;
  v_quantity : Z;
  v_price : Q;
  v_side_option : option string
}.

(** The columns the inner query of [get_all_orders_db] selects from an
    [order_items] row. *)
Definition view_of_row (oi : OrderItem) : OrderItemView :=
  {| v_name := oi_menu_item_name oi; v_quantity := oi_quantity oi;
     v_price := oi_price oi; v_side_option := oi_side_option oi |}.

(** That query, for one order: [SELECT menu_item_name as name, quantity,
    price, side_option FROM order_items WHERE order_id = ?], rows in rowid
    order (the order of a table scan; the query has no ORDER BY). *)
Definition order_items_view (db : DB) (order_id : Z) : list OrderItemView :=
  view_of_row <$> filter (λ oi, oi_order_id oi = order_id) (order_items db).

(** What that query returns for a cart line. *)
Definition view_of_line (cl : CartLine) : OrderItemView :=
  {| v_name := cl_name cl; v_quantity := cl_quantity cl;
     v_price := cl_price cl; v_side_option := cl_side_option cl |}.

(** ** Invariants of the database *)

(** Every order line names an order and a menu item that exist, and every
    history row names a menu item that exists. *)
Definition references_ok (db : DB) : Prop :=
  Forall (λ oi, is_Some (orders db !! oi_order_id oi) ∧
                is_Some (menu_items db !! oi_menu_item_id oi))
         (order_items db) ∧
  Forall (λ sh, is_Some (menu_items db !! sh_menu_item_id sh))
         (stock_history db).

(** The history rows of one item, oldest first. *)
Definition rows_of (i : Z) (h : list StockHistory) : list StockHistory :=
  filter (λ sh, sh_menu_item_id sh = i) h.

(** Each row starts at the stock the row before it ended at. *)
Fixpoint chained (l : list StockHistory) : Prop :=
  match l with
  | a :: (b :: _) as t => sh_stock_after a = sh_stock_before b ∧ chained t
  | _ => True
  end.

(** The ledger agrees with the stock column: the rows of every item are
    chained, and the latest one ends at the item's current stock. *)
Definition reconciled (m : gmap Z MenuItem) (h : list StockHistory) : Prop :=
  ∀ i, chained (rows_of i h) ∧
       ∀ sh, last (rows_of i h) = Some sh →
             mi_stock <$> m !! i = Some (sh_stock_after sh).

Definition ledger_reconciled (db : DB) : Prop :=
  reconciled (menu_items db) (stock_history db).

(** An order is pending and not completed, or ready and completed. *)
Definition lifecycle_ok (db : DB) : Prop :=
  map_Forall (λ _ o, (o_status o = "pending" ∧ o_completed_at o = None) ∨
                     (o_status o = "ready" ∧ is_Some (o_completed_at o)))
             (orders db).

(** The history rows an operation appends. *)
Definition rows_written (db : DB) (op : Op) : nat :=
  match op with
  | SubmitOrder _ _ _ items _ _ _ =>
    if decide (valid_cart db items) then length items else 0%nat
  | AddItem _ _ _ _ _ _ => 1%nat
  | AdjustStock item_id quantity_change _ _ =>
    match menu_items db !! item_id with
    | Some item =>
      if bool_decide (0 ≤ mi_stock item + quantity_change) then 1%nat
      else 0%nat
    | None => 0%nat
    end
  | _ => 0%nat
  end.

(** The columns of an order that no UPDATE names. *)
Definition same_order (o o' : Order) : Prop :=
  o_customer_name o' = o_customer_name o ∧ o_total o' = o_total o ∧
  o_payment_method o' = o_payment_method o ∧
  o_timestamp o' = o_timestamp o ∧ o_ready_time o' = o_ready_time o ∧
  o_cashier_id o' = o_cashier_id o.


(** What an operation must ask for to keep every stock non-negative: an
    order no more of an item than there is, a new item no negative stock. *)
Definition within_stock (db : DB) (op : Op) : Prop :=
  match op with
  | SubmitOrder _ _ _ items _ _ _ =>
    ∀ i r, menu_items db !! i = Some r → sold i items ≤ mi_stock r
  | AddItem _ _ _ stock _ _ => 0 ≤ stock
  | _ => True
  end.

(** A cart whose second line names an item that does not exist. *)
Definition broken_cart : list CartLine :=
  [ cart_line 7 "Braaied Wors" 3 100 (Some "Uphuthu");
    cart_line 99 "Nothing" 1 10 None ].

(** A day at the till: an order, a delivery, the kitchen done, a new item,
    a rename, a removal. *)
Definition busy_day : list Op :=
  [ SubmitOrder 1000 2000 "Thabo" wors_cart 300 "cashier" "cash";
    AdjustStock 7 20 "puncher" "weekly delivery";
    CompleteOrder 5000 1;
    AddItem "Pap" 25 "Sides" 40 0 "puncher";
    EditItem 16 "Pap (large)" 30 "Sides" 0 "puncher";
    DeleteItem 16 ].

(** The database after the first two steps of [init_db]: the users. *)
Definition init_users (db : DB) : DB :=
  let db1 :=
    if bool_decide (length (users db) = 0%nat) then
      foldl (λ d '(u, p, r), insert_user u p r d) db default_users
    else db in
  if bool_decide
       (length (filter (λ u, u_role u = "puncher") (users db1)) = 0%nat)
  then insert_user "puncher" "stock123" "puncher" db1
  else db1.


(** [users.username] is UNIQUE, which [insert_user] does not check: the
    INSERT of the puncher account in [init_db] goes through only if, when
    no user has the role 'puncher', no user has the name 'puncher'
    either. In a database where it does not, [init_db] raises. *)
Definition puncher_name_free (db : DB) : Prop :=
  filter (λ u, u_role u = "puncher") (users db) = [] →
  Forall (λ u, u_username u ≠ "puncher") (users db).

(** A line that arrived with its four keys present and not [null], and
    the cart line it is. *)
Definition line_given (raw : RawLine) (cl : CartLine) : Prop :=
  rl_id raw = Given (cl_id cl) ∧ rl_name raw = Given (cl_name cl) ∧
  rl_quantity raw = Given (cl_quantity cl) ∧
  rl_price raw = Given (cl_price cl) ∧
  rl_side_option raw = cl_side_option cl.

(** A cart line as it arrives when it is complete. *)
Definition raw_line (cl : CartLine) : RawLine :=
  {| rl_id := Given (cl_id cl); rl_name := Given (cl_name cl);
     rl_quantity := Given (cl_quantity cl); rl_price := Given (cl_price cl);
     rl_side_option := cl_side_option cl |}.

(** * Proofs *)

Section Rowids.
Context {A : Type}.
Implicit Types m : gmap Z A.

Lemma max_key_ge m k : is_Some (m !! k) → k ≤ max_key m.
Proof.
  unfold max_key. revert k.
  apply (map_fold_weak_ind
           (λ r m, ∀ k, is_Some (m !! k) → k ≤ r)
           (λ k (_ : A) acc, Z.max k acc)).
  - intros k [x Hx]. by rewrite lookup_empty in Hx.
  - intros i x m' r _ IH k Hk.
    destruct (decide (i = k)) as [->|Hne]; [lia|].
    rewrite lookup_insert_ne in Hk by done.
    specialize (IH k Hk). lia.
Qed.

Lemma next_rowid_fresh m seq : m !! next_rowid seq (max_key m) = None.
Proof.
  destruct (m !! next_rowid seq (max_key m)) eqn:E; [|done].
  assert (next_rowid seq (max_key m) ≤ max_key m)
    by (apply max_key_ge; eauto).
  unfold next_rowid in *. lia.
Qed.
End Rowids.

(** ** The loop of create_order_db *)

Lemma set_stock_set_stock s s' r : set_stock s (set_stock s' r) = set_stock s r.
Proof. reflexivity. Qed.

Lemma set_stock_same r : set_stock (mi_stock r) r = r.
Proof. by destruct r. Qed.

Lemma create_order_line_unfold oid cl db :
  create_order_line oid cl db =
  match menu_items db !! cl_id cl with
  | Some r => Returned (tt, after_line oid cl r db)
  | None => Raised TypeError
  end.
Proof.
  unfold create_order_line, mbind, tx_bind, exec, fetchone, subscript; simpl.
  by destruct (menu_items db !! cl_id cl).
Qed.

Lemma for_each_cons {A} (body : A → Tx unit) x l db :
  for_each body (x :: l) db =
  match body x db with
  | Returned (_, db') => for_each body l db'
  | Raised e => Raised e
  end.
Proof.
  simpl. unfold mbind, tx_bind.
  by destruct (body x db) as [[[] ?]|].
Qed.

Lemma valid_cart_after_line oid cl r db items :
  valid_cart db items → valid_cart (after_line oid cl r db) items.
Proof.
  unfold valid_cart. intros H. eapply Forall_impl; [exact H|].
  intros c [x Hx]; simpl.
  destruct (decide (cl_id cl = cl_id c)) as [->|Hne].
  - rewrite lookup_alter_eq, Hx. by eexists.
  - rewrite lookup_alter_ne by done. by eexists.
Qed.

Lemma valid_cart_before_line oid cl r db items :
  valid_cart (after_line oid cl r db) items → valid_cart db items.
Proof.
  unfold valid_cart. intros H. eapply Forall_impl; [exact H|].
  intros c [x Hx]; simpl in Hx.
  destruct (decide (cl_id cl = cl_id c)) as [Heq|Hne].
  - rewrite <- Heq in *. rewrite lookup_alter_eq in Hx.
    destruct (menu_items db !! cl_id cl); [by eexists | done].
  - rewrite lookup_alter_ne in Hx by done. by eexists.
Qed.

(** What the loop leaves behind when every line names an existing item. *)
Lemma for_each_lines oid items : ∀ db,
  valid_cart db items →
  ∃ db' ois shs,
    for_each (create_order_line oid) items db = Returned (tt, db') ∧
    users db' = users db ∧ users_seq db' = users_seq db ∧
    menu_items_seq db' = menu_items_seq db ∧
    orders db' = orders db ∧ orders_seq db' = orders_seq db ∧
    order_items db' = order_items db ++ ois ∧
    Forall2 (line_of oid) items ois ∧
    stock_history db' = stock_history db ++ shs ∧
    Forall2 (sale_of oid) items shs ∧
    ∀ i, menu_items db' !! i =
         (λ r, set_stock (mi_stock r - sold i items) r) <$> menu_items db !! i.
Proof.
  induction items as [|cl items IH]; intros db Hvalid.
  - exists db, [], []. simpl. rewrite !app_nil_r.
    repeat split; try constructor.
    intros i. destruct (menu_items db !! i) as [r|]; simpl; [|done].
    by rewrite Z.sub_0_r, set_stock_same.
  - apply Forall_cons in Hvalid as [[r Hr] Hrest].
    destruct (IH (after_line oid cl r db)) as
      (db' & ois & shs & Hrun & Hu & Hus & Hms & Ho & Hos & Hoi & Hl & Hsh & Hs & Hm).
    { by apply valid_cart_after_line. }
    eexists db', (_ :: ois), (_ :: shs).
    rewrite for_each_cons, create_order_line_unfold, Hr.
    split; [exact Hrun|].
    repeat (split; [first [exact Hu | exact Hus | exact Hms | exact Ho | exact Hos]|]).
    split; [rewrite Hoi; simpl; by rewrite <- app_assoc|].
    split; [constructor; [by repeat split | exact Hl]|].
    split; [rewrite Hsh; simpl; by rewrite <- app_assoc|].
    split; [constructor; [by repeat split | exact Hs]|].
    intros i. rewrite Hm. simpl.
    destruct (decide (cl_id cl = i)) as [<-|Hne].
    + rewrite lookup_alter_eq, bool_decide_eq_true_2 by done.
      destruct (menu_items db !! cl_id cl) as [r'|]; simpl; [|done].
      rewrite set_stock_set_stock. do 2 f_equal. lia.
    + rewrite lookup_alter_ne, bool_decide_eq_false_2 by done. done.
Qed.

(** The loop raises exactly when a line names a missing item. *)
Lemma for_each_returned_valid oid items : ∀ db u db',
  for_each (create_order_line oid) items db = Returned (u, db') →
  valid_cart db items.
Proof.
  induction items as [|cl items IH]; intros db u db' Hrun.
  - constructor.
  - rewrite for_each_cons, create_order_line_unfold in Hrun.
    destruct (menu_items db !! cl_id cl) as [r|] eqn:Hr; [|done].
    apply Forall_cons. split; [by eexists|].
    eapply valid_cart_before_line, IH, Hrun.
Qed.

(** ** create_order_db *)

Lemma create_order_tx_unfold now_ts now_ready cn items total cid pm db :
  let o := pending_order now_ts now_ready cn total cid pm in
  create_order_tx now_ts now_ready cn items total cid pm db =
  match for_each (create_order_line (insert_order o db).1) items
          (insert_order o db).2 with
  | Returned (_, db') => Returned ((insert_order o db).1, db')
  | Raised e => Raised e
  end.
Proof.
  unfold create_order_tx, mbind, tx_bind, exec_insert, mret, tx_ret.
  cbv zeta. destruct (insert_order _ db) as [oid db0]. simpl.
  by destruct (for_each _ items db0) as [[[] ?]|].
Qed.

(** A cart of existing items is always committed, whatever the stock. *)
Lemma create_order_db_valid db now_ts now_ready cn items total cu pm :
  valid_cart db items →
  let oid := next_rowid (orders_seq db) (max_key (orders db)) in
  let o := pending_order now_ts now_ready cn total (get_user_id db cu) pm in
  ∃ db' ois shs,
    create_order_db db now_ts now_ready cn items total cu pm
      = (db', Returned (oid, o)) ∧
    orders db !! oid = None ∧
    orders db' = <[oid := o]> (orders db) ∧
    order_items db' = order_items db ++ ois ∧
    Forall2 (line_of oid) items ois ∧
    stock_history db' = stock_history db ++ shs ∧
    Forall2 (sale_of oid) items shs ∧
    ∀ i, menu_items db' !! i =
         (λ r, set_stock (mi_stock r - sold i items) r) <$> menu_items db !! i.
Proof.
  intros Hvalid oid o.
  destruct (for_each_lines oid items (insert_order o db).2 Hvalid) as
    (db' & ois & shs & Hrun & _ & _ & _ & Ho & _ & Hoi & Hl & Hsh & Hs & Hm).
  exists db', ois, shs.
  unfold create_order_db. rewrite create_order_tx_unfold.
  change (insert_order _ db).1 with oid.
  fold o. rewrite Hrun, Ho. simpl. rewrite lookup_insert_eq.
  repeat split; try done.
  apply next_rowid_fresh.
Qed.

(** A cart that names a missing item raises, and nothing is committed. *)
Lemma create_order_db_invalid db now_ts now_ready cn items total cu pm :
  ¬ valid_cart db items →
  create_order_db db now_ts now_ready cn items total cu pm
    = (db, Raised TypeError).
Proof.
  intros Hinvalid. unfold create_order_db. rewrite create_order_tx_unfold.
  destruct (for_each _ items _) as [[u db']|[]] eqn:Hrun; [|done].
  destruct Hinvalid. by apply for_each_returned_valid in Hrun.
Qed.

Lemma create_order_db_returned db now_ts now_ready cn items total cu pm db' r :
  create_order_db db now_ts now_ready cn items total cu pm = (db', Returned r) →
  valid_cart db items.
Proof.
  intros Hret.
  destruct (decide (valid_cart db items)) as [|Hinvalid]; [done|].
  rewrite create_order_db_invalid in Hret by done. congruence.
Qed.

Lemma fresh_db_stock_nonneg : stock_nonneg fresh_db.
Proof.
  unfold stock_nonneg. apply map_Forall_to_list.
  vm_compute. repeat constructor; discriminate.
Qed.

(** C1 (evaluation at a failing input). On the default database the cart
    [oversold_cart] has a third line of 51 Braaied Wors against a stock of
    50. [create_order_db] raises nothing: it returns order 1, and the
    committed database holds the order row, three order lines, three
    history rows and the decremented stocks of all three items, the third
    one at -1. *)
Theorem C1_oversold_order_is_committed :
  valid_cart fresh_db oversold_cart ∧
  mi_stock <$> menu_items fresh_db !! 7 = Some 50 ∧
  ∃ db' o,
    create_order_db fresh_db 1000 2000 "Thabo" oversold_cart 5410 "cashier"
      "cash" = (db', Returned (1, o)) ∧
    size (orders fresh_db) = 0%nat ∧ size (orders db') = 1%nat ∧
    length (order_items fresh_db) = 0%nat ∧ length (order_items db') = 3%nat ∧
    length (stock_history fresh_db) = 0%nat ∧
    length (stock_history db') = 3%nat ∧
    mi_stock <$> menu_items db' !! 1 = Some 48 ∧
    mi_stock <$> menu_items db' !! 14 = Some 118 ∧
    mi_stock <$> menu_items db' !! 7 = Some (-1).
Proof.
  split; [|split; [reflexivity|]].
  - repeat (apply Forall_cons; split; [vm_compute; by eexists|]).
    constructor.
  - eexists _, _. split; [vm_compute; reflexivity|].
    repeat split; by vm_compute.
Qed.

(** [update_stock] keeps every stock non-negative: the guarded path. *)
Lemma update_stock_stock_nonneg db id q pu n :
  stock_nonneg db → stock_nonneg (update_stock db id q pu n).1.
Proof.
  intros Hdb. unfold update_stock.
  destruct (menu_items db !! id) as [item|] eqn:Hid; [|done].
  case_bool_decide as Hneg; [done|].
  intros i r. simpl. intros Hr.
  destruct (decide (id = i)) as [->|Hne].
  - rewrite lookup_alter_eq, Hid in Hr. injection Hr as <-. simpl. lia.
  - rewrite lookup_alter_ne in Hr by done. by apply (Hdb i).
Qed.

(** [create_order_db] keeps it only for a cart that asks, of every item,
    no more than its stock; the function itself does not look. *)
Lemma create_order_db_stock_nonneg db now_ts now_ready cn items total cu pm :
  stock_nonneg db →
  (∀ i r, menu_items db !! i = Some r → sold i items ≤ mi_stock r) →
  stock_nonneg (create_order_db db now_ts now_ready cn items total cu pm).1.
Proof.
  intros Hdb Hcart.
  destruct (decide (valid_cart db items)) as [Hvalid|Hinvalid].
  - destruct (create_order_db_valid db now_ts now_ready cn items total cu pm
                Hvalid) as (db' & _ & _ & Hrun & _ & _ & _ & _ & _ & _ & Hm).
    rewrite Hrun. intros i r'. simpl. rewrite Hm.
    destruct (menu_items db !! i) as [r|] eqn:Hi; [|done].
    intros [= <-]. simpl. specialize (Hcart i r Hi). lia.
  - by rewrite create_order_db_invalid.
Qed.

(** C2 (evaluation at failing inputs). The default database has no
    negative stock. An order for 51 Braaied Wors (stock 50) commits a
    stock of -1, and adding an item with an initial stock of -5 commits
    that stock. *)
Theorem C2_stock_goes_negative :
  stock_nonneg fresh_db ∧
  mi_stock <$>
    menu_items
      (step fresh_db
         (SubmitOrder 1000 2000 "Thabo"
            [cart_line 7 "Braaied Wors" 51 100 (Some "Uphuthu")] 5100
            "cashier" "cash")) !! 7 = Some (-1) ∧
  mi_stock <$>
    menu_items
      (step fresh_db (AddItem "Pap" 25 "Sides" (-5) 0 "puncher")) !! 16
    = Some (-5).
Proof.
  split; [exact fresh_db_stock_nonneg|].
  split; by vm_compute.
Qed.

(** C3. A call of [create_order_db] that returns order [oid] with row [o]
    has created exactly that row in [orders] (the id was free before),
    with status 'pending', ready time the clock reading plus 15 minutes
    (15 * 60 * 1000000 microseconds) and the total as passed in; it has
    appended one order line per cart line, with the price of the cart
    line; the stock of every menu item is its old stock minus the
    quantities of the cart lines that name it, its other columns are as
    before and no item appears or disappears; and it has appended one
    history row per cart line: type 'sale', change [- quantity], note
    "Order #oid", no puncher. *)
Theorem C3_create_order_db_success
    db now_ts now_ready cn items total cu pm db' oid o :
  create_order_db db now_ts now_ready cn items total cu pm
    = (db', Returned (oid, o)) →
  orders db !! oid = None ∧
  orders db' = <[oid := o]> (orders db) ∧
  o_status o = "pending" ∧
  o_ready_time o = Some (now_ready + 15 * 60 * 1000000) ∧
  o_total o = total ∧
  (∃ ois, order_items db' = order_items db ++ ois ∧
          Forall2 (line_of oid) items ois) ∧
  (∀ i r, menu_items db !! i = Some r →
     ∃ r', menu_items db' !! i = Some r' ∧
           mi_stock r' = mi_stock r - sold i items ∧
           mi_name r' = mi_name r ∧ mi_price r' = mi_price r ∧
           mi_category r' = mi_category r ∧
           mi_requires_side r' = mi_requires_side r) ∧
  (∀ i, menu_items db !! i = None → menu_items db' !! i = None) ∧
  (∃ shs, stock_history db' = stock_history db ++ shs ∧
          Forall2 (sale_of oid) items shs).
Proof.
  intros Hret.
  pose proof (create_order_db_returned _ _ _ _ _ _ _ _ _ _ Hret) as Hvalid.
  destruct (create_order_db_valid db now_ts now_ready cn items total cu pm
              Hvalid)
    as (db1 & ois & shs & Hrun & Hfree & Ho & Hoi & Hl & Hsh & Hs & Hm).
  rewrite Hrun in Hret. injection Hret as <- <- <-.
  split; [exact Hfree|]. split; [exact Ho|]. split; [reflexivity|].
  split; [reflexivity|]. split; [reflexivity|]. split; [eauto|].
  split; [|split; [|eauto]].
  - intros i r Hr. rewrite Hm, Hr. eexists. split; [reflexivity|].
    by repeat split.
  - intros i Hr. by rewrite Hm, Hr.
Qed.

Lemma C3_witness :
  let r := create_order_db fresh_db 1000 2000 "Thabo" wors_cart 300
             "cashier" "cash" in
  ∃ o, r = (r.1, Returned (1, o)) ∧
       o_ready_time o = Some 900002000 ∧
       mi_stock <$> menu_items fresh_db !! 7 = Some 50 ∧
       mi_stock <$> menu_items r.1 !! 7 = Some 47 ∧
       mi_stock <$> menu_items r.1 !! 1 = Some 50.
Proof.
  intros r.
  exists (pending_order 1000 2000 "Thabo" 300 (Some 1) "cash").
  assert (Hret : r = (r.1, Returned (1, pending_order 1000 2000 "Thabo" 300
                                          (Some 1) "cash")))
    by (vm_compute; reflexivity).
  split; [exact Hret|].
  destruct (C3_create_order_db_success _ _ _ _ _ _ _ _ _ _ _ Hret)
    as (_ & _ & _ & Hready & _ & _ & Hm & _).
  split; [exact Hready|]. split; [reflexivity|].
  destruct (Hm 7 braaied_wors eq_refl) as (r7 & Hr7 & Hs7 & _).
  destruct (Hm 1 (menu_row "Boiled Beef" 120 "Meat" 50 1) eq_refl)
    as (r1 & Hr1 & Hs1 & _).
  rewrite Hr7, Hr1. cbn [fmap option_fmap option_map]. rewrite Hs7, Hs1.
  split; vm_compute; reflexivity.
Defined.

(** ** The history rows each operation writes *)

Lemma sale_of_balanced oid cl sh : sale_of oid cl sh → balanced sh.
Proof. unfold balanced. intros (_ & _ & _ & -> & -> & _). lia. Qed.

Lemma sales_balanced oid items shs :
  Forall2 (sale_of oid) items shs → Forall balanced shs.
Proof.
  induction 1; constructor; eauto using sale_of_balanced.
Qed.

Lemma create_order_db_history db now_ts now_ready cn items total cu pm sh :
  sh ∈ stock_history
         (create_order_db db now_ts now_ready cn items total cu pm).1 →
  sh ∈ stock_history db ∨ balanced sh.
Proof.
  destruct (decide (valid_cart db items)) as [Hvalid|Hinvalid].
  - destruct (create_order_db_valid db now_ts now_ready cn items total cu pm
                Hvalid) as (db' & ois & shs & Hrun & _ & _ & _ & _ & Hsh & Hs & _).
    rewrite Hrun. simpl. rewrite Hsh, elem_of_app. intros [Hold|Hnew]; [by left|right].
    apply sales_balanced in Hs. by eapply Forall_forall in Hs.
  - rewrite create_order_db_invalid by done. by left.
Qed.

Lemma add_menu_item_history db name price category stock rs pu sh :
  sh ∈ stock_history (add_menu_item db name price category stock rs pu).1 →
  sh ∈ stock_history db ∨ balanced sh.
Proof.
  simpl. rewrite elem_of_app, list_elem_of_singleton.
  intros [Hold| ->]; [by left|right]. unfold balanced; simpl. lia.
Qed.

Lemma update_stock_history db id q pu n sh :
  sh ∈ stock_history (update_stock db id q pu n).1 →
  sh ∈ stock_history db ∨ balanced sh.
Proof.
  unfold update_stock.
  destruct (menu_items db !! id) as [item|]; [|by left].
  case_bool_decide; [by left|].
  simpl. rewrite elem_of_app, list_elem_of_singleton.
  intros [Hold| ->]; [by left|right]. reflexivity.
Qed.

Lemma delete_menu_item_history db id sh :
  sh ∈ stock_history (delete_menu_item db id).1 → sh ∈ stock_history db.
Proof.
  unfold delete_menu_item. case_bool_decide; [done|].
  simpl. rewrite list_elem_of_filter. tauto.
Qed.

Lemma step_history db op sh :
  sh ∈ stock_history (step db op) → sh ∈ stock_history db ∨ balanced sh.
Proof.
  destruct op; cbn [step].
  - apply create_order_db_history.
  - by left.
  - apply add_menu_item_history.
  - by left.
  - apply update_stock_history.
  - left. by eapply delete_menu_item_history.
Qed.

(** Every history row of a database reached from the default one is
    balanced. *)
Lemma run_history_balanced ops db :
  Forall balanced (stock_history db) →
  Forall balanced (stock_history (run db ops)).
Proof.
  revert db. induction ops as [|op ops IH]; intros db Hdb; [done|].
  simpl. apply IH. apply Forall_forall. intros sh Hsh.
  destruct (step_history _ _ _ Hsh) as [Hold|Hnew]; [|done].
  by eapply Forall_forall in Hdb.
Qed.

(** C4. Every history row an operation writes (a row of [stock_history]
    after the operation that is not a row from before it) has
    [stock_after = stock_before + quantity_change]; this covers the sale
    rows of [create_order_db], the initial row of [add_menu_item] and the
    restock and adjustment rows of [update_stock]. *)
Theorem C4_written_rows_balanced db op sh :
  sh ∈ stock_history (step db op) →
  sh ∉ stock_history db →
  sh_stock_after sh = sh_stock_before sh + sh_quantity_change sh.
Proof.
  intros Hafter Hbefore.
  by destruct (step_history db op sh Hafter).
Qed.

Lemma C4_witness :
  let op := AdjustStock 7 20 "puncher" "weekly delivery" in
  delivery_row ∈ stock_history (step db_after_sale op) ∧
  (delivery_row ∉ stock_history db_after_sale) ∧
  sh_stock_after delivery_row =
    sh_stock_before delivery_row + sh_quantity_change delivery_row.
Proof.
  intros op.
  assert (Hafter : delivery_row ∈ stock_history (step db_after_sale op))
    by (vm_compute; do 2 constructor).
  assert (Hbefore : delivery_row ∉ stock_history db_after_sale).
  { vm_compute. intros H. inversion H as [|? ? ? H1]; inversion H1. }
  split; [exact Hafter|]. split; [exact Hbefore|].
  exact (C4_written_rows_balanced db_after_sale op delivery_row Hafter Hbefore).
Defined.

(** ** update_stock *)

Lemma update_stock_missing db id q pu n :
  menu_items db !! id = None → update_stock db id q pu n = (db, None).
Proof. intros Hid. unfold update_stock. by rewrite Hid. Qed.

Lemma update_stock_underflow db id q pu n item :
  menu_items db !! id = Some item → mi_stock item + q < 0 →
  update_stock db id q pu n = (db, None).
Proof.
  intros Hid Hneg. unfold update_stock. rewrite Hid.
  by rewrite bool_decide_eq_true_2.
Qed.

Lemma update_stock_accepted db id q pu n item :
  menu_items db !! id = Some item → 0 ≤ mi_stock item + q →
  update_stock db id q pu n =
  (insert_stock_history id (mi_name item) q (mi_stock item)
     (mi_stock item + q)
     (if bool_decide (q > 0) then "restock" else "adjustment")
     (get_user_id db pu) n
     (set_menu_items (alter (set_stock (mi_stock item + q)) id) db),
   Some (id, set_stock (mi_stock item + q) item)).
Proof.
  intros Hid Hok. unfold update_stock. rewrite Hid.
  rewrite bool_decide_eq_false_2 by lia.
  simpl. by rewrite lookup_alter_eq, Hid.
Qed.

(** C5. For an existing item, [update_stock] rejects (returns [None])
    exactly when the stock plus the change is negative, and a rejected
    call leaves the database as it was: same stock, no history row. *)
Theorem C5_update_stock_rejects_iff_underflow db id q pu n item :
  menu_items db !! id = Some item →
  ((update_stock db id q pu n).2 = None ↔ mi_stock item + q < 0) ∧
  ((update_stock db id q pu n).2 = None →
   (update_stock db id q pu n).1 = db ∧
   menu_items (update_stock db id q pu n).1 !! id = Some item ∧
   stock_history (update_stock db id q pu n).1 = stock_history db).
Proof.
  intros Hid.
  destruct (decide (mi_stock item + q < 0)) as [Hneg|Hok].
  - rewrite (update_stock_underflow _ _ _ _ _ _ Hid Hneg). simpl.
    by repeat split.
  - rewrite (update_stock_accepted _ _ _ _ _ _ Hid) by lia. simpl.
    split; [split; [done | lia] | done].
Qed.

Lemma C5_witness :
  menu_items fresh_db !! 7 = Some braaied_wors ∧
  (update_stock fresh_db 7 (-60) "puncher" "").2 = None ∧
  (update_stock fresh_db 7 (-60) "puncher" "").1 = fresh_db.
Proof.
  assert (Hid : menu_items fresh_db !! 7 = Some braaied_wors) by reflexivity.
  destruct (C5_update_stock_rejects_iff_underflow fresh_db 7 (-60) "puncher"
              "" braaied_wors Hid) as [Hiff Hsame].
  assert (Hnone : (update_stock fresh_db 7 (-60) "puncher" "").2 = None)
    by (apply Hiff; simpl; lia).
  split; [exact Hid|]. split; [exact Hnone|]. exact (proj1 (Hsame Hnone)).
Defined.

Lemma alter_lookup_Some {A} (f : A → A) (m : gmap Z A) i x :
  m !! i = Some x → alter f i m = <[i := f x]> m.
Proof.
  intros Hi. transitivity (alter f i (<[i := x]> m)).
  - by rewrite insert_id.
  - apply alter_insert_eq.
Qed.

Lemma set_orders_id f db : f (orders db) = orders db → set_orders f db = db.
Proof. destruct db; unfold set_orders; simpl. by intros ->. Qed.

(** C6 as stated does not hold: a change of 0 is not accepted for every
    existing item. Item 7 of [db_oversold] exists with a stock of -1, and
    [update_stock] with a change of 0 returns [None] there and writes
    nothing: the guard [stock_after < 0] sees -1 + 0. *)
Lemma C6_zero_change_refused :
  menu_items db_oversold !! 7 = Some (set_stock (-1) braaied_wors) ∧
  update_stock db_oversold 7 0 "puncher" "recount" = (db_oversold, None) ∧
  ¬ (∀ db id pu n item,
       menu_items db !! id = Some item →
       ∃ db' it, update_stock db id 0 pu n = (db', Some it)).
Proof.
  assert (Hret : update_stock db_oversold 7 0 "puncher" "recount"
                 = (db_oversold, None)) by (vm_compute; reflexivity).
  split; [vm_compute; reflexivity|]. split; [exact Hret|].
  intros Hall.
  destruct (Hall db_oversold 7 "puncher" "recount"
              (set_stock (-1) braaied_wors))
    as (db' & it & Hsome); [vm_compute; reflexivity|].
  pose proof (f_equal snd Hsome) as Hsnd.
  rewrite Hret in Hsnd. cbn [snd] in Hsnd. discriminate Hsnd.
Qed.

(** C6, amended: the change of 0 is accepted when the item's stock is not
    negative. A call of [update_stock] that succeeds has appended one history
    row, for the item and the change passed in, whose type is 'restock'
    when the change is positive and 'adjustment' when it is zero or
    negative. A change of 0 on an item whose stock is not negative is
    accepted: the call returns the item as it was, the menu is unchanged,
    and the row appended has change 0 and type 'adjustment'. *)
Theorem C6_update_stock_change_type db id pu n :
  (∀ q db' it,
     update_stock db id q pu n = (db', Some it) →
     ∃ e, stock_history db' = stock_history db ++ [e] ∧
          sh_menu_item_id e = id ∧
          sh_quantity_change e = q ∧
          (0 < q → sh_change_type e = "restock") ∧
          (q ≤ 0 → sh_change_type e = "adjustment")) ∧
  (∀ item,
     menu_items db !! id = Some item → 0 ≤ mi_stock item →
     ∃ db' e, update_stock db id 0 pu n = (db', Some (id, item)) ∧
              menu_items db' = menu_items db ∧
              stock_history db' = stock_history db ++ [e] ∧
              sh_quantity_change e = 0 ∧
              sh_change_type e = "adjustment").
Proof.
  split.
  - intros q db' it Hret.
    destruct (menu_items db !! id) as [item|] eqn:Hid;
      [|by rewrite update_stock_missing in Hret].
    destruct (decide (mi_stock item + q < 0)) as [Hneg|Hok];
      [by rewrite (update_stock_underflow _ _ _ _ _ _ Hid Hneg) in Hret|].
    rewrite (update_stock_accepted _ _ _ _ _ _ Hid) in Hret by lia.
    injection Hret as <- _. eexists. split; [reflexivity|]. simpl.
    repeat split.
    + intros Hq. by rewrite bool_decide_eq_true_2 by lia.
    + intros Hq. by rewrite bool_decide_eq_false_2 by lia.
  - intros item Hid Hstock.
    rewrite (update_stock_accepted _ _ _ _ _ _ Hid) by lia.
    rewrite Z.add_0_r, set_stock_same.
    eexists _, _. split; [reflexivity|]. simpl.
    split; [|done].
    apply alter_id. intros r Hr. rewrite Hid in Hr. injection Hr as <-.
    apply set_stock_same.
Qed.

Lemma C6_witness :
  (∃ e, stock_history (update_stock db_after_sale 7 20 "puncher"
                         "weekly delivery").1
          = stock_history db_after_sale ++ [e] ∧
        sh_change_type e = "restock") ∧
  (update_stock fresh_db 7 0 "puncher" "recount").2 = Some (7, braaied_wors).
Proof.
  split.
  - destruct (proj1 (C6_update_stock_change_type db_after_sale 7 "puncher"
                       "weekly delivery") 20
                (update_stock db_after_sale 7 20 "puncher" "weekly delivery").1
                (7, set_stock 67 braaied_wors))
      as (e & He & _ & _ & Hpos & _).
    { vm_compute. reflexivity. }
    exists e. split; [exact He|]. apply Hpos. lia.
  - destruct (proj2 (C6_update_stock_change_type fresh_db 7 "puncher"
                       "recount") braaied_wors)
      as (db' & e & Hret & _).
    { reflexivity. }
    { simpl. lia. }
    rewrite Hret. reflexivity.
Defined.

(** ** complete_order_db *)

Lemma complete_order_db_found db now id o :
  orders db !! id = Some o →
  complete_order_db db now id =
  (set_orders (<[id := mark_ready now o]>) db, Some (id, mark_ready now o)).
Proof.
  intros Hid. unfold complete_order_db. simpl.
  rewrite lookup_alter_eq, Hid. simpl. f_equal.
  destruct db; unfold set_orders; simpl in *. f_equal.
  by apply alter_lookup_Some.
Qed.

Lemma complete_order_db_missing db now id :
  orders db !! id = None → complete_order_db db now id = (db, None).
Proof.
  intros Hid. unfold complete_order_db. simpl.
  rewrite lookup_alter_eq, Hid. simpl. f_equal.
  apply set_orders_id. by apply alter_id'.
Qed.

(** C7. On an existing order, whatever its status, [complete_order_db]
    sets the status to 'ready' and [completed_at] to the clock reading and
    changes nothing else; a second call on the same order succeeds again
    and leaves the second clock reading in [completed_at]. When no order
    has the id, it returns [None] and the database is unchanged (no row
    created, none modified), and the handler answers 404 'Order not
    found'. *)
Theorem C7_complete_order db session now id :
  (∀ o, orders db !! id = Some o →
     complete_order_db db now id =
       (set_orders (<[id := mark_ready now o]>) db,
        Some (id, mark_ready now o)) ∧
     o_status (mark_ready now o) = "ready" ∧
     o_completed_at (mark_ready now o) = Some now ∧
     ∀ now2,
       complete_order_db (complete_order_db db now id).1 now2 id =
         (set_orders (<[id := mark_ready now2 o]>) db,
          Some (id, mark_ready now2 o))) ∧
  (orders db !! id = None →
     complete_order_db db now id = (db, None) ∧
     (unauthorized session "kitchen" = false →
      complete_order db session now id =
        (db, {| status_code := 404; body := JError "Order not found" |}))).
Proof.
  split.
  - intros o Hid. rewrite (complete_order_db_found _ _ _ _ Hid).
    repeat split. intros now2. simpl.
    rewrite (complete_order_db_found _ now2 id (mark_ready now o))
      by apply lookup_insert_eq.
    f_equal. unfold set_orders; simpl. by rewrite insert_insert_eq.
  - intros Hid. split; [by apply complete_order_db_missing|].
    intros Hauth. unfold complete_order.
    by rewrite Hauth, complete_order_db_missing.
Qed.

Lemma C7_witness :
  let o := pending_order 1000 2000 "Thabo" 300 (Some 1) "cash" in
  (complete_order_db db_after_sale 5000 1).2 = Some (1, mark_ready 5000 o) ∧
  (complete_order_db (complete_order_db db_after_sale 5000 1).1 7000 1).2
    = Some (1, mark_ready 7000 o) ∧
  complete_order db_after_sale (session_of "kitchen" "kitchen") 5000 99
    = (db_after_sale,
       {| status_code := 404; body := JError "Order not found" |}).
Proof.
  intros o.
  destruct (C7_complete_order db_after_sale (session_of "kitchen" "kitchen")
              5000 1) as [Hfound _].
  destruct (Hfound o) as (Hret & _ & _ & Hagain); [reflexivity|].
  destruct (C7_complete_order db_after_sale (session_of "kitchen" "kitchen")
              5000 99) as [_ Hmissing].
  destruct Hmissing as [_ Hnotfound]; [reflexivity|].
  split; [by rewrite Hret|]. split; [by rewrite Hagain|].
  apply Hnotfound. reflexivity.
Defined.

(** ** delete_menu_item *)

Lemma delete_menu_item_referenced db id oi :
  oi ∈ order_items db → oi_menu_item_id oi = id →
  delete_menu_item db id =
  (db, {| success := false;
          message := "Cannot delete item that has been used in orders" |}).
Proof.
  intros Hin Hid. unfold delete_menu_item.
  assert (Hf : oi ∈ filter (λ oi, oi_menu_item_id oi = id) (order_items db))
    by (by apply list_elem_of_filter).
  destruct (filter _ (order_items db)) as [|x l]; [by inversion Hf|].
  rewrite bool_decide_eq_true_2; [done|]. simpl. lia.
Qed.

Lemma delete_menu_item_unreferenced db id :
  (∀ oi, oi ∈ order_items db → oi_menu_item_id oi ≠ id) →
  delete_menu_item db id =
  (set_menu_items (delete id)
     {| users := users db; users_seq := users_seq db;
        menu_items := menu_items db; menu_items_seq := menu_items_seq db;
        orders := orders db; orders_seq := orders_seq db;
        order_items := order_items db; order_items_seq := order_items_seq db;
        stock_history :=
          filter (λ sh, sh_menu_item_id sh ≠ id) (stock_history db);
        stock_history_seq := stock_history_seq db |},
   {| success := true; message := "Item deleted successfully" |}).
Proof.
  intros Hnone. unfold delete_menu_item.
  destruct (filter _ (order_items db)) as [|x l] eqn:Hf.
  - rewrite bool_decide_eq_false_2; [done|]. simpl. lia.
  - assert (Hx : x ∈ filter (λ oi, oi_menu_item_id oi = id) (order_items db))
      by (rewrite Hf; constructor).
    apply list_elem_of_filter in Hx as [Hid Hin].
    by destruct (Hnone x Hin).
Qed.

(** C8. When an order line names the item, [delete_menu_item] returns the
    dictionary with [success] false (a value, no exception) and the
    database is unchanged: the item and its history stay. When no order
    line names it, the call returns [success] true, the item's row is gone,
    every history row of the item is gone, and the other items, the other
    history rows, the orders and the order lines are as before. *)
Theorem C8_delete_menu_item db id :
  ((∃ oi, oi ∈ order_items db ∧ oi_menu_item_id oi = id) →
   delete_menu_item db id =
     (db, {| success := false;
             message := "Cannot delete item that has been used in orders" |})) ∧
  ((∀ oi, oi ∈ order_items db → oi_menu_item_id oi ≠ id) →
   let db' := (delete_menu_item db id).1 in
   success (delete_menu_item db id).2 = true ∧
   menu_items db' = delete id (menu_items db) ∧
   menu_items db' !! id = None ∧
   stock_history db' =
     filter (λ sh, sh_menu_item_id sh ≠ id) (stock_history db) ∧
   (∀ sh, sh ∈ stock_history db' → sh_menu_item_id sh ≠ id) ∧
   (∀ sh, sh ∈ stock_history db → sh_menu_item_id sh ≠ id →
          sh ∈ stock_history db') ∧
   orders db' = orders db ∧
   order_items db' = order_items db).
Proof.
  split.
  - intros (oi & Hin & Hid). by eapply delete_menu_item_referenced.
  - intros Hnone db'. subst db'.
    rewrite (delete_menu_item_unreferenced _ _ Hnone). simpl.
    repeat split.
    + apply lookup_delete_eq.
    + intros sh Hsh. by apply list_elem_of_filter in Hsh as [? _].
    + intros sh Hsh Hne. by apply list_elem_of_filter.
Qed.

Lemma C8_witness :
  (delete_menu_item db_with_pap 7).1 = db_with_pap ∧
  success (delete_menu_item db_with_pap 7).2 = false ∧
  success (delete_menu_item db_with_pap 16).2 = true ∧
  menu_items (delete_menu_item db_with_pap 16).1 !! 16 = None ∧
  length (stock_history db_with_pap) = 2%nat ∧
  length (stock_history (delete_menu_item db_with_pap 16).1) = 1%nat.
Proof.
  destruct (C8_delete_menu_item db_with_pap 7) as [Hrefused _].
  destruct (C8_delete_menu_item db_with_pap 16) as [_ Hdeleted].
  assert (Href : ∃ oi, oi ∈ order_items db_with_pap ∧ oi_menu_item_id oi = 7).
  { eexists. split; [vm_compute; constructor | reflexivity]. }
  assert (Hunref : ∀ oi, oi ∈ order_items db_with_pap →
                         oi_menu_item_id oi ≠ 16).
  { intros oi Hin. vm_compute in Hin.
    inversion Hin as [|? ? ? Hnil]; [subst; simpl; lia | inversion Hnil]. }
  destruct (Hdeleted Hunref) as (Hsucc & _ & Hgone & _).
  rewrite (Hrefused Href).
  split; [reflexivity|].
  split; [reflexivity|].
  split; [exact Hsucc|].
  split; [exact Hgone|].
  split; vm_compute; reflexivity.
Defined.

(** ** update_menu_item *)

(** C9. [update_menu_item] leaves the stock of every item as it was and
    appends no history row (the history is the same list); the row of the
    item gets the four fields passed in and keeps its stock, and the other
    rows, the orders and the order lines are unchanged. *)
Theorem C9_update_menu_item_frame db id name price category rs pu :
  let db' := (update_menu_item db id name price category rs pu).1 in
  (∀ i, mi_stock <$> menu_items db' !! i = mi_stock <$> menu_items db !! i) ∧
  stock_history db' = stock_history db ∧
  stock_history_seq db' = stock_history_seq db ∧
  menu_items db' !! id =
    set_details name price category rs <$> menu_items db !! id ∧
  (∀ r, mi_stock (set_details name price category rs r) = mi_stock r) ∧
  (∀ i, i ≠ id → menu_items db' !! i = menu_items db !! i) ∧
  orders db' = orders db ∧
  order_items db' = order_items db.
Proof.
  simpl. repeat split.
  - intros i. destruct (decide (id = i)) as [->|Hne].
    + rewrite lookup_alter_eq. by destruct (menu_items db !! i).
    + by rewrite lookup_alter_ne.
  - apply lookup_alter_eq.
  - intros i Hne. by rewrite lookup_alter_ne.
Qed.

(** ** puncher_update_stock *)

(** C10. For an item id that names no menu item, [update_stock] returns
    [None] with the database unchanged, the value it also returns on a
    stock underflow; the handler answers both with the same 400 response,
    'Failed to update stock. Stock cannot be negative.'. *)
Theorem C10_unknown_item_reported_as_underflow db session data id q pu n :
  menu_items db !! id = None →
  quantityChange data = Some q →
  unauthorized session "puncher" = false →
  update_stock db id q pu n = (db, None) ∧
  puncher_update_stock db session data id =
    (db, {| status_code := 400;
            body := JError "Failed to update stock. Stock cannot be negative." |}) ∧
  ∀ db2 id2 item,
    menu_items db2 !! id2 = Some item → mi_stock item + q < 0 →
    (update_stock db2 id2 q pu n).2 = (update_stock db id q pu n).2 ∧
    (puncher_update_stock db2 session data id2).2 =
      (puncher_update_stock db session data id).2.
Proof.
  intros Hid Hq Hauth.
  assert (Hresp : puncher_update_stock db session data id =
    (db, {| status_code := 400;
            body := JError "Failed to update stock. Stock cannot be negative." |})).
  { unfold puncher_update_stock.
    by rewrite Hauth, Hq, update_stock_missing. }
  split; [by apply update_stock_missing|]. split; [exact Hresp|].
  intros db2 id2 item Hid2 Hneg.
  rewrite Hresp, (update_stock_missing _ _ _ _ _ Hid).
  rewrite (update_stock_underflow _ _ _ _ _ _ Hid2 Hneg).
  split; [done|]. unfold puncher_update_stock.
  by rewrite Hauth, Hq, (update_stock_underflow _ _ _ _ _ _ Hid2 Hneg).
Qed.

Lemma C10_witness :
  let session := session_of "puncher" "puncher" in
  let data := {| quantityChange := Some (-60); notes := None |} in
  puncher_update_stock fresh_db session data 99 =
    (fresh_db,
     {| status_code := 400;
        body := JError "Failed to update stock. Stock cannot be negative." |}) ∧
  (puncher_update_stock fresh_db session data 7).2 =
    (puncher_update_stock fresh_db session data 99).2.
Proof.
  intros session data.
  destruct (C10_unknown_item_reported_as_underflow fresh_db session data 99
              (-60) "puncher" "")
    as (_ & Hresp & Hsame); [reflexivity | reflexivity | vm_compute; reflexivity |].
  split; [exact Hresp|].
  destruct (Hsame fresh_db 7 braaied_wors) as [_ Heq];
    [reflexivity | vm_compute; reflexivity | exact Heq].
Defined.

(** ** Invariants along the statements of a transaction *)

Lemma for_each_preserves (P : DB → Prop) oid :
  (∀ cl r db, P db → menu_items db !! cl_id cl = Some r →
              P (after_line oid cl r db)) →
  ∀ items db u db',
    P db → for_each (create_order_line oid) items db = Returned (u, db') →
    P db'.
Proof.
  intros Hline. induction items as [|cl items IH]; intros db u db' HP Hrun.
  - simpl in Hrun. by injection Hrun as _ <-.
  - rewrite for_each_cons, create_order_line_unfold in Hrun.
    destruct (menu_items db !! cl_id cl) as [r|] eqn:Hr; [|done].
    eapply IH; [|exact Hrun]. by apply Hline.
Qed.

(** A property the INSERT of the order establishes and every pass of the
    loop keeps holds after [create_order_db], whether it commits or not. *)
Lemma create_order_db_inv (P : DB → Prop) (Q : Z → DB → Prop) :
  (∀ o db, P db → Q (insert_order o db).1 (insert_order o db).2) →
  (∀ oid cl r db, Q oid db → menu_items db !! cl_id cl = Some r →
                  Q oid (after_line oid cl r db)) →
  (∀ oid db, Q oid db → P db) →
  ∀ db now_ts now_ready cn items total cu pm,
    P db → P (create_order_db db now_ts now_ready cn items total cu pm).1.
Proof.
  intros Hinsert Hline HQP db now_ts now_ready cn items total cu pm HP.
  unfold create_order_db. rewrite create_order_tx_unfold.
  destruct (for_each _ items _) as [[u db']|e] eqn:Hrun; [|done].
  assert (P db').
  { eapply HQP, (for_each_preserves (Q _)); [apply Hline| |exact Hrun].
    by apply Hinsert. }
  by destruct (orders db' !! _).
Qed.

(** ** References *)

Lemma references_ok_after_line oid cl r db :
  references_ok db ∧ is_Some (orders db !! oid) →
  menu_items db !! cl_id cl = Some r →
  references_ok (after_line oid cl r db) ∧
  is_Some (orders (after_line oid cl r db) !! oid).
Proof.
  intros [[Hoi Hsh] Hoid] Hr.
  assert (Hkeep : ∀ i, is_Some (menu_items db !! i) →
    is_Some (alter (λ r, set_stock (mi_stock r - cl_quantity cl) r)
               (cl_id cl) (menu_items db) !! i)).
  { intros i [x Hx]. destruct (decide (cl_id cl = i)) as [->|Hne].
    - rewrite lookup_alter_eq, Hx. by eexists.
    - rewrite lookup_alter_ne by done. by eexists. }
  split; [split|exact Hoid]; simpl.
  - apply Forall_app. split.
    + eapply Forall_impl; [exact Hoi|]. intros oi [? ?]. split; auto.
    + repeat constructor; simpl; [done|]. apply Hkeep. by eexists.
  - apply Forall_app. split.
    + eapply Forall_impl; [exact Hsh|]. intros sh ?. auto.
    + repeat constructor; simpl. apply Hkeep. by eexists.
Qed.

Lemma create_order_db_references_ok db now_ts now_ready cn items total cu pm :
  references_ok db →
  references_ok (create_order_db db now_ts now_ready cn items total cu pm).1.
Proof.
  apply (create_order_db_inv references_ok
           (λ oid db, references_ok db ∧ is_Some (orders db !! oid))).
  - intros o d [Hoi Hsh]. split; [split|]; simpl.
    + eapply Forall_impl; [exact Hoi|]. intros oi [[x Hx] ?]. split; [|done].
      apply lookup_insert_is_Some'. right. by eexists.
    + done.
    + rewrite lookup_insert_eq. by eexists.
  - intros. by apply references_ok_after_line.
  - by intros oid d [? _].
Qed.

Lemma update_stock_references_ok db id q pu n :
  references_ok db → references_ok (update_stock db id q pu n).1.
Proof.
  intros [Hoi Hsh]. unfold update_stock.
  destruct (menu_items db !! id) as [item|] eqn:Hid; [|done].
  case_bool_decide; [done|].
  assert (Hkeep : ∀ i, is_Some (menu_items db !! i) →
    is_Some (alter (set_stock (mi_stock item + q)) id (menu_items db) !! i)).
  { intros i [x Hx]. destruct (decide (id = i)) as [->|Hne].
    - rewrite lookup_alter_eq, Hx. by eexists.
    - rewrite lookup_alter_ne by done. by eexists. }
  split; simpl.
  - eapply Forall_impl; [exact Hoi|]. intros oi [? ?]. split; auto.
  - apply Forall_app. split.
    + eapply Forall_impl; [exact Hsh|]. intros sh ?. auto.
    + repeat constructor; simpl. apply Hkeep. by eexists.
Qed.

Lemma referenced_or_not db id :
  (∃ oi, oi ∈ order_items db ∧ oi_menu_item_id oi = id) ∨
  (∀ oi, oi ∈ order_items db → oi_menu_item_id oi ≠ id).
Proof.
  destruct (decide (Exists (λ oi, oi_menu_item_id oi = id) (order_items db)))
    as [Hex|Hnone].
  - left. by apply Exists_exists.
  - right. intros oi Hin Hid. apply Hnone, Exists_exists. eauto.
Qed.

Lemma delete_menu_item_references_ok db id :
  references_ok db → references_ok (delete_menu_item db id).1.
Proof.
  intros [Hoi Hsh].
  destruct (referenced_or_not db id) as [(oi & Hin & Hid)|Hunref].
  - by rewrite (delete_menu_item_referenced _ _ _ Hin Hid).
  - rewrite (delete_menu_item_unreferenced _ _ Hunref). split; simpl.
    + apply Forall_forall. intros oi Hin.
      apply (proj1 (Forall_forall _ _) Hoi) in Hin as Hoi'.
      destruct Hoi' as [? Hitem]. split; [done|].
      rewrite lookup_delete_ne; [done|]. intros Heq. by apply (Hunref oi).
    + apply Forall_forall. intros sh Hin.
      apply list_elem_of_filter in Hin as [Hne Hin].
      rewrite lookup_delete_ne by done.
      by apply (proj1 (Forall_forall _ _) Hsh).
Qed.

Lemma step_references_ok db op :
  references_ok db → references_ok (step db op).
Proof.
  destruct op; cbn [step].
  - apply create_order_db_references_ok.
  - intros [Hoi Hsh]. split; simpl; [|done].
    eapply Forall_impl; [exact Hoi|]. intros oi [[x Hx] ?]. split; [|done].
    destruct (decide (order_id = oi_order_id oi)) as [->|Hne].
    + rewrite lookup_alter_eq, Hx. by eexists.
    + rewrite lookup_alter_ne by done. by eexists.
  - intros [Hoi Hsh]. split; simpl.
    + eapply Forall_impl; [exact Hoi|]. intros oi [? [x Hx]]. split; [done|].
      apply lookup_insert_is_Some'. right. by eexists.
    + apply Forall_app. split.
      * eapply Forall_impl; [exact Hsh|]. intros sh [x Hx].
        apply lookup_insert_is_Some'. right. by eexists.
      * repeat constructor; simpl. rewrite lookup_insert_eq. by eexists.
  - intros [Hoi Hsh].
    assert (Hkeep : ∀ i, is_Some (menu_items db !! i) →
      is_Some (alter (set_details name price category requires_side) item_id
                 (menu_items db) !! i)).
    { intros i [x Hx]. destruct (decide (item_id = i)) as [->|Hne].
      - rewrite lookup_alter_eq, Hx. by eexists.
      - rewrite lookup_alter_ne by done. by eexists. }
    split; simpl.
    + eapply Forall_impl; [exact Hoi|]. intros oi [? ?]. split; auto.
    + eapply Forall_impl; [exact Hsh|]. intros sh ?. auto.
  - apply update_stock_references_ok.
  - apply delete_menu_item_references_ok.
Qed.

(** ** The ledger and the stock column *)

Lemma chained_snoc l e :
  chained (l ++ [e]) ↔
  chained l ∧ ∀ a, last l = Some a → sh_stock_after a = sh_stock_before e.
Proof.
  induction l as [|a [|b l] IH].
  - simpl. split; [intros _; split; [done|by intros a [=]] | done].
  - simpl. split.
    + intros [Hab _]. split; [done|]. by intros a' [= <-].
    + intros [_ Hlast]. split; [by apply Hlast|done].
  - change (chained ((a :: b :: l) ++ [e])) with
      (sh_stock_after a = sh_stock_before b ∧ chained ((b :: l) ++ [e])).
    change (chained (a :: b :: l)) with
      (sh_stock_after a = sh_stock_before b ∧ chained (b :: l)).
    rewrite IH, last_cons_cons. tauto.
Qed.

Lemma rows_of_snoc i h e :
  rows_of i (h ++ [e]) =
  if decide (sh_menu_item_id e = i) then rows_of i h ++ [e] else rows_of i h.
Proof.
  unfold rows_of. rewrite filter_app. case_decide.
  - by rewrite filter_cons_True.
  - rewrite filter_cons_False by done. simpl. by rewrite app_nil_r.
Qed.

(** A row appended for an existing item, starting at its stock, with the
    stock column moved to where the row ends. *)
Lemma reconciled_append m h id e r (f : MenuItem → MenuItem) :
  m !! id = Some r →
  sh_menu_item_id e = id →
  sh_stock_before e = mi_stock r →
  mi_stock (f r) = sh_stock_after e →
  reconciled m h → reconciled (alter f id m) (h ++ [e]).
Proof.
  intros Hid He Hbefore Hafter Hrec i. rewrite rows_of_snoc.
  destruct (Hrec i) as [Hch Hlast]. case_decide as Hi.
  - subst i. rewrite <- He in *. split.
    + apply chained_snoc. split; [done|]. intros a Ha.
      specialize (Hlast a Ha). rewrite Hid in Hlast. simpl in Hlast.
      injection Hlast as Hlast. congruence.
    + intros sh. rewrite last_snoc. intros [= <-].
      rewrite lookup_alter_eq, Hid. simpl. by rewrite Hafter.
  - split; [done|]. intros sh Hsh.
    rewrite lookup_alter_ne by congruence. by apply Hlast.
Qed.

Lemma reconciled_alter m h id (f : MenuItem → MenuItem) :
  (∀ r, mi_stock (f r) = mi_stock r) →
  reconciled m h → reconciled (alter f id m) h.
Proof.
  intros Hf Hrec i. destruct (Hrec i) as [Hch Hlast]. split; [done|].
  intros sh Hsh. specialize (Hlast sh Hsh).
  destruct (decide (id = i)) as [->|Hne].
  - rewrite lookup_alter_eq. destruct (m !! i); simpl in *; [|done].
    by rewrite Hf.
  - by rewrite lookup_alter_ne.
Qed.

Lemma reconciled_insert m h id e r :
  m !! id = None →
  sh_menu_item_id e = id →
  mi_stock r = sh_stock_after e →
  reconciled m h → reconciled (<[id := r]> m) (h ++ [e]).
Proof.
  intros Hid He Hafter Hrec i. rewrite rows_of_snoc.
  destruct (Hrec i) as [Hch Hlast]. case_decide as Hi.
  - subst i. rewrite <- He in *.
    assert (Hnil : rows_of (sh_menu_item_id e) h = []).
    { apply last_None.
      destruct (last (rows_of (sh_menu_item_id e) h)) as [a|] eqn:Ha; [|done].
      specialize (Hlast a eq_refl). by rewrite Hid in Hlast. }
    rewrite Hnil. simpl. split; [done|]. intros sh [= <-].
    rewrite lookup_insert_eq. simpl. by rewrite Hafter.
  - split; [done|]. intros sh Hsh.
    rewrite lookup_insert_ne by congruence. by apply Hlast.
Qed.

Lemma rows_of_deleted id h :
  rows_of id (filter (λ sh, sh_menu_item_id sh ≠ id) h) = [].
Proof.
  unfold rows_of. induction h as [|a h IH]; [done|].
  destruct (decide (sh_menu_item_id a = id)) as [Ha|Ha].
  - by rewrite filter_cons_False by tauto.
  - rewrite filter_cons_True by done. by rewrite filter_cons_False.
Qed.

Lemma rows_of_kept i id h :
  i ≠ id →
  rows_of i (filter (λ sh, sh_menu_item_id sh ≠ id) h) = rows_of i h.
Proof.
  intros Hne. unfold rows_of. induction h as [|a h IH]; [done|].
  destruct (decide (sh_menu_item_id a = id)) as [Ha|Ha].
  - rewrite filter_cons_False by tauto.
    by rewrite (filter_cons_False _ a) by congruence.
  - rewrite filter_cons_True by done.
    destruct (decide (sh_menu_item_id a = i)) as [Hi|Hi].
    + rewrite !filter_cons_True by done. by rewrite IH.
    + by rewrite !filter_cons_False by done.
Qed.

Lemma reconciled_delete m h id :
  reconciled m h →
  reconciled (delete id m) (filter (λ sh, sh_menu_item_id sh ≠ id) h).
Proof.
  intros Hrec i. destruct (decide (i = id)) as [->|Hne].
  - rewrite rows_of_deleted. split; [done|]. by intros sh [=].
  - rewrite rows_of_kept by done.
    destruct (Hrec i) as [Hch Hlast]. split; [done|].
    intros sh Hsh. rewrite lookup_delete_ne by done. by apply Hlast.
Qed.

Lemma create_order_db_reconciled db now_ts now_ready cn items total cu pm :
  ledger_reconciled db →
  ledger_reconciled
    (create_order_db db now_ts now_ready cn items total cu pm).1.
Proof.
  apply (create_order_db_inv ledger_reconciled (λ _, ledger_reconciled)).
  - by intros o d Hd.
  - intros oid cl r d Hd Hr. unfold ledger_reconciled; simpl.
    by apply (reconciled_append _ _ _ _ r).
  - done.
Qed.

Lemma update_stock_reconciled db id q pu n :
  ledger_reconciled db → ledger_reconciled (update_stock db id q pu n).1.
Proof.
  intros Hdb. unfold update_stock.
  destruct (menu_items db !! id) as [item|] eqn:Hid; [|done].
  case_bool_decide; [done|].
  unfold ledger_reconciled; simpl. by apply (reconciled_append _ _ _ _ item).
Qed.

Lemma delete_menu_item_reconciled db id :
  ledger_reconciled db → ledger_reconciled (delete_menu_item db id).1.
Proof.
  intros Hdb. unfold delete_menu_item. case_bool_decide; [done|].
  unfold ledger_reconciled; simpl. by apply reconciled_delete.
Qed.

Lemma step_reconciled db op :
  ledger_reconciled db → ledger_reconciled (step db op).
Proof.
  destruct op; cbn [step].
  - apply create_order_db_reconciled.
  - done.
  - intros Hdb. unfold ledger_reconciled; simpl.
    apply reconciled_insert; [apply next_rowid_fresh|done|done|done].
  - intros Hdb. unfold ledger_reconciled; simpl.
    by apply reconciled_alter.
  - apply update_stock_reconciled.
  - apply delete_menu_item_reconciled.
Qed.

(** ** What an operation does to the orders *)

Lemma create_order_db_orders db now_ts now_ready cn items total cu pm :
  orders (create_order_db db now_ts now_ready cn items total cu pm).1
    = orders db ∨
  let oid := next_rowid (orders_seq db) (max_key (orders db)) in
  orders db !! oid = None ∧
  orders (create_order_db db now_ts now_ready cn items total cu pm).1
    = <[oid := pending_order now_ts now_ready cn total (get_user_id db cu) pm]>
        (orders db).
Proof.
  destruct (decide (valid_cart db items)) as [Hvalid|Hinvalid].
  - right.
    destruct (create_order_db_valid db now_ts now_ready cn items total cu pm
                Hvalid) as (db' & _ & _ & Hrun & Hfree & Ho & _).
    rewrite Hrun. by split.
  - left. by rewrite create_order_db_invalid.
Qed.

Lemma step_orders db op i o :
  orders db !! i = Some o →
  ∃ o', orders (step db op) !! i = Some o' ∧ same_order o o' ∧
        (o' = o ∨ (o_status o' = "ready" ∧ is_Some (o_completed_at o'))).
Proof.
  intros Hi.
  assert (Hsame : orders (step db op) = orders db →
    ∃ o', orders (step db op) !! i = Some o' ∧ same_order o o' ∧
          (o' = o ∨ (o_status o' = "ready" ∧ is_Some (o_completed_at o')))).
  { intros ->. exists o. by repeat split; try left. }
  destruct op; cbn [step] in *; try (by apply Hsame).
  - destruct (create_order_db_orders db now_ts now_ready customer_name items
                total cashier_username payment_method) as [Heq|[Hfree Heq]];
      [by apply Hsame|].
    rewrite Heq. exists o. rewrite lookup_insert_ne by congruence.
    by repeat split; try left.
  - simpl. destruct (decide (order_id = i)) as [->|Hne].
    + rewrite lookup_alter_eq, Hi. simpl. eexists. split; [done|].
      split; [by repeat split|]. right. simpl. split; [done|by eexists].
    + rewrite lookup_alter_ne by done. exists o. by repeat split; try left.
  - apply Hsame. unfold update_stock.
    destruct (menu_items db !! item_id); [|done]. by case_bool_decide.
  - apply Hsame. unfold delete_menu_item. by case_bool_decide.
Qed.

Lemma step_lifecycle_ok db op : lifecycle_ok db → lifecycle_ok (step db op).
Proof.
  intros Hdb.
  assert (Hsame : orders (step db op) = orders db → lifecycle_ok (step db op))
    by (unfold lifecycle_ok; by intros ->).
  destruct op; cbn [step] in *; try (by apply Hsame).
  - destruct (create_order_db_orders db now_ts now_ready customer_name items
                total cashier_username payment_method) as [Heq|[Hfree Heq]];
      [by apply Hsame|].
    unfold lifecycle_ok. rewrite Heq. apply map_Forall_insert; [done|].
    split; [by left|done].
  - intros i o'. simpl. intros Ho'.
    destruct (decide (order_id = i)) as [->|Hne].
    + rewrite lookup_alter_eq in Ho'.
      destruct (orders db !! i); simpl in Ho'; [|done].
      injection Ho' as <-. right. simpl. split; [done|by eexists].
    + rewrite lookup_alter_ne in Ho' by done. by apply (Hdb i).
  - apply Hsame. unfold update_stock.
    destruct (menu_items db !! item_id); [|done]. by case_bool_decide.
  - apply Hsame. unfold delete_menu_item. by case_bool_decide.
Qed.

(** ** Tables that only grow *)

Lemma step_order_items db op :
  order_items db `prefix_of` order_items (step db op).
Proof.
  destruct op; cbn [step]; try done.
  - destruct (decide (valid_cart db items)) as [Hvalid|Hinvalid].
    + destruct (create_order_db_valid db now_ts now_ready customer_name items
                  total cashier_username payment_method Hvalid)
        as (db' & ois & _ & Hrun & _ & _ & Hoi & _).
      rewrite Hrun. simpl. rewrite Hoi. by apply prefix_app_r.
    + by rewrite create_order_db_invalid.
  - unfold update_stock. destruct (menu_items db !! item_id); [|done].
    by case_bool_decide.
  - unfold delete_menu_item. by case_bool_decide.
Qed.

Lemma step_stock_history db op :
  (∀ id, op ≠ DeleteItem id) →
  ∃ rows, stock_history (step db op) = stock_history db ++ rows ∧
          length rows = rows_written db op.
Proof.
  intros Hop. destruct op; cbn [step rows_written].
  - destruct (decide (valid_cart db items)) as [Hvalid|Hinvalid].
    + destruct (create_order_db_valid db now_ts now_ready customer_name items
                  total cashier_username payment_method Hvalid)
        as (db' & _ & shs & Hrun & _ & _ & _ & _ & Hsh & Hs & _).
      rewrite Hrun. exists shs. split; [done|].
      symmetry. by eapply Forall2_length.
    + rewrite create_order_db_invalid by done. exists [].
      by rewrite app_nil_r.
  - exists []. by rewrite app_nil_r.
  - eexists [_]. by split.
  - exists []. by rewrite app_nil_r.
  - unfold update_stock. destruct (menu_items db !! item_id) as [item|];
      [|exists []; by rewrite app_nil_r].
    destruct (decide (mi_stock item + quantity_change < 0)) as [Hneg|Hok].
    + rewrite (bool_decide_eq_true_2 (_ < 0)) by lia.
      rewrite (bool_decide_eq_false_2 (0 ≤ _)) by lia.
      exists []. by rewrite app_nil_r.
    + rewrite (bool_decide_eq_false_2 (_ < 0)) by lia.
      rewrite (bool_decide_eq_true_2 (0 ≤ _)) by lia.
      simpl. eexists [_]. by split.
  - by destruct (Hop item_id).
Qed.

(** ** Row ids *)

Lemma next_rowid_gt seq largest : seq < next_rowid seq largest.
Proof. unfold next_rowid. lia. Qed.

Lemma create_order_db_seq db now_ts now_ready cn items total cu pm :
  let db' := (create_order_db db now_ts now_ready cn items total cu pm).1 in
  menu_items_seq db ≤ menu_items_seq db' ∧ orders_seq db ≤ orders_seq db'.
Proof.
  apply (create_order_db_inv
           (λ d, menu_items_seq db ≤ menu_items_seq d ∧
                 orders_seq db ≤ orders_seq d)
           (λ _ d, menu_items_seq db ≤ menu_items_seq d ∧
                   orders_seq db ≤ orders_seq d)); [| |done|done].
  - intros o d [? ?]. simpl. split; [done|].
    pose proof (next_rowid_gt (orders_seq d) (max_key (orders d))). lia.
  - by intros oid cl r d [? ?] _.
Qed.

Lemma step_seq db op :
  menu_items_seq db ≤ menu_items_seq (step db op) ∧
  orders_seq db ≤ orders_seq (step db op).
Proof.
  destruct op; cbn [step]; try done.
  - apply create_order_db_seq.
  - simpl. split; [|done].
    pose proof (next_rowid_gt (menu_items_seq db) (max_key (menu_items db))).
    lia.
  - unfold update_stock. destruct (menu_items db !! item_id); [|done].
    by case_bool_decide.
  - unfold delete_menu_item. by case_bool_decide.
Qed.

Lemma run_seq ops db :
  menu_items_seq db ≤ menu_items_seq (run db ops) ∧
  orders_seq db ≤ orders_seq (run db ops).
Proof.
  revert db. induction ops as [|op ops IH]; intros db; [done|].
  simpl. destruct (step_seq db op), (IH (step db op)). lia.
Qed.

Lemma add_menu_item_id db name price category stock rs pu :
  ∃ id row,
    (add_menu_item db name price category stock rs pu).2 = Some (id, row) ∧
    menu_items_seq (add_menu_item db name price category stock rs pu).1 = id ∧
    menu_items_seq db < id.
Proof.
  simpl. rewrite lookup_insert_eq. eexists _, _. split; [done|].
  split; [done|]. apply next_rowid_gt.
Qed.

Lemma create_order_db_id db now_ts now_ready cn items total cu pm db' oid o :
  create_order_db db now_ts now_ready cn items total cu pm
    = (db', Returned (oid, o)) →
  orders_seq db < oid ∧ oid ≤ orders_seq db'.
Proof.
  intros Hret. assert (Hret' := Hret).
  unfold create_order_db in Hret. rewrite create_order_tx_unfold in Hret.
  destruct (for_each _ items _) as [[u d]|e] eqn:Hrun; [|done].
  destruct (orders d !! _) eqn:Hd; [|done].
  injection Hret as <- <- <-. simpl. split; [apply next_rowid_gt|].
  set (oid := next_rowid (orders_seq db) (max_key (orders db))) in *.
  eapply (for_each_preserves (λ d, oid ≤ orders_seq d) oid
            (λ cl r d' Hd' _, Hd')); [|exact Hrun].
  simpl. lia.
Qed.

(** ** Lists that a filter keeps or empties *)

Lemma filter_all {A} (P : A → Prop) `{!∀ x, Decision (P x)} (l : list A) :
  Forall P l → filter P l = l.
Proof.
  induction 1 as [|x l Hx _ IH]; [done|].
  by rewrite filter_cons_True, IH.
Qed.

Lemma filter_none {A} (P : A → Prop) `{!∀ x, Decision (P x)} (l : list A) :
  Forall (λ x, ¬ P x) l → filter P l = [].
Proof.
  induction 1 as [|x l Hx _ IH]; [done|].
  by rewrite filter_cons_False.
Qed.

(** ** Reading back what create_order_db wrote *)

Lemma lines_view oid items ois :
  Forall2 (line_of oid) items ois →
  Forall (λ oi, oi_order_id oi = oid) ois ∧
  view_of_row <$> ois = view_of_line <$> items.
Proof.
  induction 1 as [|cl oi items ois (Hoid & _ & Hname & Hq & Hp & Hs) _ [IH1 IH2]];
    [done|].
  split; [by constructor|]. csimpl. rewrite IH2. f_equal.
  unfold view_of_row, view_of_line. by rewrite Hname, Hq, Hp, Hs.
Qed.


(** * Further properties *)

(** X1. [create_order_db] commits all of an order or nothing: a cart whose
    lines all name existing items returns an order, and a cart with a line
    that names a missing item raises [TypeError] and leaves the database
    as it was, whatever lines come before that one. *)
Theorem X1_create_order_db_all_or_nothing
    db now_ts now_ready cn items total cu pm :
  (valid_cart db items →
   ∃ db' r, create_order_db db now_ts now_ready cn items total cu pm
              = (db', Returned r)) ∧
  (¬ valid_cart db items →
   create_order_db db now_ts now_ready cn items total cu pm
     = (db, Raised TypeError)).
Proof.
  split.
  - intros Hvalid.
    destruct (create_order_db_valid db now_ts now_ready cn items total cu pm
                Hvalid) as (db' & _ & _ & Hrun & _).
    eauto.
  - apply create_order_db_invalid.
Qed.

Lemma X1_witness :
  create_order_db fresh_db 1000 2000 "Thabo" broken_cart 310 "cashier" "cash"
    = (fresh_db, Raised TypeError).
Proof.
  apply (X1_create_order_db_all_or_nothing fresh_db 1000 2000 "Thabo"
           broken_cart 310 "cashier" "cash").
  intros Hvalid.
  apply Forall_cons in Hvalid as [_ Hvalid].
  apply Forall_cons in Hvalid as [[x Hx] _].
  vm_compute in Hx. discriminate.
Defined.

(** X2. After [create_order_db] returns an order, the query
    [get_all_orders_db] runs for that order gives back the cart: name,
    quantity, price and side option of every line, in cart order; and the
    lines of every other order are as before. This needs the order lines
    already in the table to name existing orders. *)
Theorem X2_order_lines_read_back
    db now_ts now_ready cn items total cu pm db' oid o :
  references_ok db →
  create_order_db db now_ts now_ready cn items total cu pm
    = (db', Returned (oid, o)) →
  order_items_view db' oid = view_of_line <$> items ∧
  ∀ j, j ≠ oid → order_items_view db' j = order_items_view db j.
Proof.
  intros [Hrefs _] Hret.
  pose proof (create_order_db_returned _ _ _ _ _ _ _ _ _ _ Hret) as Hvalid.
  destruct (create_order_db_valid db now_ts now_ready cn items total cu pm
              Hvalid)
    as (db1 & ois & shs & Hrun & Hfree & _ & Hoi & Hl & _).
  rewrite Hrun in Hret. injection Hret as <- <- <-.
  apply lines_view in Hl as [Hoid Hview].
  unfold order_items_view. rewrite Hoi. split.
  - rewrite filter_app.
    rewrite (filter_none _ (order_items db)), (filter_all _ ois); [done|done|].
    eapply Forall_impl; [exact Hrefs|]. intros oi [[x Hx] _] Heq.
    rewrite Heq in Hx. by rewrite Hfree in Hx.
  - intros j Hj. rewrite filter_app.
    rewrite (filter_none _ ois); [by rewrite app_nil_r|].
    eapply Forall_impl; [exact Hoid|]. intros oi -> Heq. by apply Hj.
Qed.

Lemma fresh_db_references_ok : references_ok fresh_db.
Proof. split; constructor. Qed.

Lemma X2_witness :
  order_items_view db_after_sale 1 = view_of_line <$> wors_cart.
Proof.
  refine (proj1 (X2_order_lines_read_back fresh_db 1000 2000 "Thabo" wors_cart
                   300 "cashier" "cash" db_after_sale 1
                   (pending_order 1000 2000 "Thabo" 300 (Some 1) "cash")
                   fresh_db_references_ok _)).
  vm_compute. reflexivity.
Defined.

Lemma run_references_ok ops db :
  references_ok db → references_ok (run db ops).
Proof.
  revert db. induction ops as [|op ops IH]; intros db Hdb; [done|].
  simpl. by apply IH, step_references_ok.
Qed.

(** X3. No sequence of operations leaves a dangling reference: if every
    order line names an existing order and an existing menu item, and
    every history row an existing menu item, the same holds afterwards. *)
Theorem X3_references_kept db ops :
  references_ok db → references_ok (run db ops).
Proof. apply run_references_ok. Qed.

Lemma X3_witness : references_ok (run fresh_db busy_day).
Proof. exact (X3_references_kept fresh_db busy_day fresh_db_references_ok). Defined.

Lemma run_reconciled ops db :
  ledger_reconciled db → ledger_reconciled (run db ops).
Proof.
  revert db. induction ops as [|op ops IH]; intros db Hdb; [done|].
  simpl. by apply IH, step_reconciled.
Qed.

Lemma fresh_db_reconciled : ledger_reconciled fresh_db.
Proof. intros i. split; [done|]. intros sh Hsh. discriminate. Qed.

(** X4. The ledger reconciles with the stock column, and no sequence of
    operations breaks that: when, for every item, each history row starts
    at the stock the previous row of the item ended at and the latest row
    ends at the item's current stock, the same holds afterwards. *)
Theorem X4_ledger_reconciles db ops :
  ledger_reconciled db → ledger_reconciled (run db ops).
Proof. apply run_reconciled. Qed.

Lemma X4_witness : ledger_reconciled (run fresh_db busy_day).
Proof. exact (X4_ledger_reconciles fresh_db busy_day fresh_db_reconciled). Defined.

Lemma run_orders ops : ∀ db i o,
  orders db !! i = Some o →
  ∃ o', orders (run db ops) !! i = Some o' ∧ same_order o o' ∧
        (o_status o = "ready" → o_status o' = "ready").
Proof.
  induction ops as [|op ops IH]; intros db i o Hi.
  - exists o. by repeat split.
  - destruct (step_orders db op i o Hi) as (o1 & Hi1 & Hsame1 & Hst1).
    destruct (IH (step db op) i o1 Hi1) as (o2 & Hi2 & Hsame2 & Hst2).
    exists o2. split; [exact Hi2|].
    destruct Hsame1 as (? & ? & ? & ? & ? & ?).
    destruct Hsame2 as (? & ? & ? & ? & ? & ?).
    split; [repeat split; congruence|].
    intros Hready. apply Hst2.
    destruct Hst1 as [->|[? _]]; done.
Qed.

(** X5. No sequence of operations deletes an order, changes its customer,
    total, payment method, creation time, ready time or cashier, or takes
    a ready order back to another status. *)
Theorem X5_orders_are_kept db ops i o :
  orders db !! i = Some o →
  ∃ o', orders (run db ops) !! i = Some o' ∧
        o_customer_name o' = o_customer_name o ∧
        o_total o' = o_total o ∧
        o_payment_method o' = o_payment_method o ∧
        o_timestamp o' = o_timestamp o ∧
        o_ready_time o' = o_ready_time o ∧
        o_cashier_id o' = o_cashier_id o ∧
        (o_status o = "ready" → o_status o' = "ready").
Proof.
  intros Hi. destruct (run_orders ops db i o Hi) as (o' & Hi' & Hsame & Hst).
  exists o'. destruct Hsame as (? & ? & ? & ? & ? & ?). by repeat split.
Qed.

Lemma X5_witness :
  ∃ o', orders (run db_after_sale busy_day) !! 1 = Some o' ∧
        o_total o' = 300%Q ∧ o_customer_name o' = "Thabo".
Proof.
  destruct (X5_orders_are_kept db_after_sale busy_day 1
              (pending_order 1000 2000 "Thabo" 300 (Some 1) "cash") eq_refl)
    as (o' & Hi & Hname & Htotal & _).
  exists o'. split; [exact Hi|]. split; [exact Htotal|exact Hname].
Defined.

Lemma run_lifecycle_ok ops db : lifecycle_ok db → lifecycle_ok (run db ops).
Proof.
  revert db. induction ops as [|op ops IH]; intros db Hdb; [done|].
  simpl. by apply IH, step_lifecycle_ok.
Qed.

Lemma fresh_db_lifecycle_ok : lifecycle_ok fresh_db.
Proof. apply map_Forall_to_list. vm_compute. constructor. Qed.

(** X6. The status of an order and its completion time go together, and
    no sequence of operations separates them: when every order is either
    'pending' without [completed_at] or 'ready' with one, the same holds
    afterwards. *)
Theorem X6_lifecycle_kept db ops : lifecycle_ok db → lifecycle_ok (run db ops).
Proof. apply run_lifecycle_ok. Qed.

Lemma X6_witness : lifecycle_ok (run fresh_db busy_day).
Proof. exact (X6_lifecycle_kept fresh_db busy_day fresh_db_lifecycle_ok). Defined.

Lemma run_order_items ops db :
  order_items db `prefix_of` order_items (run db ops).
Proof.
  revert db. induction ops as [|op ops IH]; intros db; [done|].
  simpl. etrans; [apply step_order_items|apply IH].
Qed.

(** X7. The order lines are append-only: after any sequence of operations
    the table begins with the rows it had, unchanged and in order. *)
Theorem X7_order_items_append_only db ops :
  ∃ rows, order_items (run db ops) = order_items db ++ rows.
Proof. apply run_order_items. Qed.

(** X8. Every operation but the deletion of an item leaves the history
    rows it found in place and appends as many as it has stock changes:
    one per cart line for an order of existing items, one for a new item,
    one for an accepted stock adjustment, none otherwise (a refused
    adjustment, an order that raises, a completion, an edit). *)
Theorem X8_stock_history_growth db op :
  (∀ id, op ≠ DeleteItem id) →
  ∃ rows, stock_history (step db op) = stock_history db ++ rows ∧
          length rows = rows_written db op.
Proof. apply step_stock_history. Qed.

Lemma X8_witness :
  ∃ rows, stock_history
            (step fresh_db
               (SubmitOrder 1000 2000 "Thabo" oversold_cart 5410 "cashier"
                  "cash"))
            = stock_history fresh_db ++ rows ∧
          length rows = 3%nat.
Proof.
  destruct (X8_stock_history_growth fresh_db
              (SubmitOrder 1000 2000 "Thabo" oversold_cart 5410 "cashier"
                 "cash")) as (rows & Hrows & Hlen); [discriminate|].
  exists rows. split; [exact Hrows|]. rewrite Hlen. vm_compute. reflexivity.
Defined.

(** X9. Item ids are never reused: an item added after any sequence of
    operations, deletions included, gets an id greater than that of every
    item added before. *)
Theorem X9_item_ids_never_reused
    db ops name1 price1 cat1 stock1 rs1 pu1 name2 price2 cat2 stock2 rs2 pu2
    id1 row1 id2 row2 :
  let first := add_menu_item db name1 price1 cat1 stock1 rs1 pu1 in
  first.2 = Some (id1, row1) →
  (add_menu_item (run first.1 ops) name2 price2 cat2 stock2 rs2 pu2).2
    = Some (id2, row2) →
  id1 < id2.
Proof.
  intros first H1 H2. subst first.
  set (db1 := (add_menu_item db name1 price1 cat1 stock1 rs1 pu1).1) in *.
  destruct (add_menu_item_id db name1 price1 cat1 stock1 rs1 pu1)
    as (i1 & r1 & Hr1 & Hs1 & _).
  destruct (add_menu_item_id (run db1 ops) name2 price2 cat2 stock2 rs2 pu2)
    as (i2 & r2 & Hr2 & _ & Hlt).
  fold db1 in Hs1. rewrite Hr1 in H1. rewrite Hr2 in H2.
  injection H1 as -> _. injection H2 as -> _.
  destruct (run_seq ops db1) as [Hle _]. lia.
Qed.

Lemma X9_witness :
  (add_menu_item (run db_with_pap [DeleteItem 16]) "Samp" 25 "Sides" 10 0
     "puncher").2
  = Some (17, menu_row "Samp" 25 "Sides" 10 0) ∧ 16 < 17.
Proof.
  assert (H2 : (add_menu_item (run db_with_pap [DeleteItem 16]) "Samp" 25
                  "Sides" 10 0 "puncher").2
               = Some (17, menu_row "Samp" 25 "Sides" 10 0))
    by (vm_compute; reflexivity).
  split; [exact H2|].
  refine (X9_item_ids_never_reused db_after_sale [DeleteItem 16]
            "Pap" 25 "Sides" 40 0 "puncher" "Samp" 25 "Sides" 10 0 "puncher"
            16 (menu_row "Pap" 25 "Sides" 40 0) 17
            (menu_row "Samp" 25 "Sides" 10 0) _ H2).
  vm_compute. reflexivity.
Defined.

(** X10. Order ids only grow: an order created after any sequence of
    operations gets an id greater than that of every order created
    before. *)
Theorem X10_order_ids_increase
    db ops t1 r1 cn1 items1 total1 cu1 pm1 t2 r2 cn2 items2 total2 cu2 pm2
    db1 oid1 o1 db2 oid2 o2 :
  create_order_db db t1 r1 cn1 items1 total1 cu1 pm1
    = (db1, Returned (oid1, o1)) →
  create_order_db (run db1 ops) t2 r2 cn2 items2 total2 cu2 pm2
    = (db2, Returned (oid2, o2)) →
  oid1 < oid2.
Proof.
  intros H1 H2.
  apply create_order_db_id in H1 as [_ H1].
  apply create_order_db_id in H2 as [H2 _].
  destruct (run_seq ops db1) as [_ Hle]. lia.
Qed.

Lemma X10_witness :
  ∃ db2 o2,
    create_order_db (run db_after_sale busy_day) 8000 9000 "Zanele" wors_cart
      300 "cashier" "card" = (db2, Returned (3, o2)) ∧ 1 < 3.
Proof.
  eexists _, _.
  assert (H2 : create_order_db (run db_after_sale busy_day) 8000 9000 "Zanele"
                 wors_cart 300 "cashier" "card"
               = ((create_order_db (run db_after_sale busy_day) 8000 9000
                     "Zanele" wors_cart 300 "cashier" "card").1,
                  Returned (3, pending_order 8000 9000 "Zanele" 300 (Some 1)
                                 "card")))
    by (vm_compute; reflexivity).
  split; [exact H2|].
  refine (X10_order_ids_increase fresh_db busy_day 1000 2000 "Thabo" wors_cart
            300 "cashier" "cash" 8000 9000 "Zanele" wors_cart 300 "cashier"
            "card" db_after_sale 1
            (pending_order 1000 2000 "Thabo" 300 (Some 1) "cash") _ 3 _ _ H2).
  vm_compute. reflexivity.
Defined.


(** X12. An accepted [update_stock] sets the item's stock to the old stock
    plus the change and returns that row; every other item is untouched;
    the history row records the old and the new stock, the item's name at
    that time, the note and the id of the puncher named. *)
Theorem X12_update_stock_accepted db id q pu n item :
  menu_items db !! id = Some item →
  0 ≤ mi_stock item + q →
  ∃ e,
    let r := update_stock db id q pu n in
    r.2 = Some (id, set_stock (mi_stock item + q) item) ∧
    menu_items r.1 = <[id := set_stock (mi_stock item + q) item]> (menu_items db) ∧
    stock_history r.1 = stock_history db ++ [e] ∧
    sh_stock_before e = mi_stock item ∧
    sh_stock_after e = mi_stock item + q ∧
    sh_menu_item_name e = mi_name item ∧
    sh_notes e = Some n ∧
    sh_puncher_id e = get_user_id db pu.
Proof.
  intros Hid Hok. rewrite (update_stock_accepted _ _ _ _ _ _ Hid Hok).
  eexists. simpl. repeat split. by apply alter_lookup_Some.
Qed.

Lemma X12_witness :
  (update_stock db_after_sale 7 20 "puncher" "weekly delivery").2
    = Some (7, set_stock 67 braaied_wors) ∧
  stock_history (update_stock db_after_sale 7 20 "puncher" "weekly delivery").1
    = stock_history db_after_sale ++ [delivery_row].
Proof.
  destruct (X12_update_stock_accepted db_after_sale 7 20 "puncher"
              "weekly delivery" (set_stock 47 braaied_wors))
    as (e & Hret & _); [reflexivity|vm_compute; discriminate|].
  split; [exact Hret|]. vm_compute. reflexivity.
Defined.

(** X13. Two accepted adjustments of an item leave the menu as one
    adjustment by their sum does (and two history rows instead of one). *)
Theorem X13_update_stock_twice db id q1 q2 pu1 n1 pu2 n2 pu n item :
  menu_items db !! id = Some item →
  0 ≤ mi_stock item + q1 →
  0 ≤ mi_stock item + q1 + q2 →
  let twice :=
    (update_stock (update_stock db id q1 pu1 n1).1 id q2 pu2 n2).1 in
  let once := (update_stock db id (q1 + q2) pu n).1 in
  menu_items twice = menu_items once ∧
  length (stock_history twice) = S (length (stock_history once)).
Proof.
  intros Hid H1 H2 twice once. subst twice once.
  rewrite (update_stock_accepted db _ _ _ _ _ Hid H1).
  rewrite (update_stock_accepted db _ (q1 + q2) _ _ _ Hid) by lia.
  cbn [fst].
  erewrite update_stock_accepted; cycle 1.
  { simpl. rewrite lookup_alter_eq, Hid. reflexivity. }
  { simpl. lia. }
  simpl. split.
  - rewrite (alter_lookup_Some _ _ _ _ Hid).
    rewrite (alter_lookup_Some _ (<[id:=_]> _) id (set_stock (mi_stock item + q1) item))
      by apply lookup_insert_eq.
    rewrite (alter_lookup_Some _ _ _ _ Hid), insert_insert_eq.
    rewrite set_stock_set_stock. do 2 f_equal. lia.
  - rewrite !length_app. simpl. lia.
Qed.

Lemma X13_witness :
  menu_items
    (update_stock (update_stock fresh_db 7 (-30) "puncher" "spoiled").1 7 20
       "puncher" "delivery").1
  = menu_items (update_stock fresh_db 7 (-10) "puncher" "net").1.
Proof.
  refine (proj1 (X13_update_stock_twice fresh_db 7 (-30) 20 "puncher" "spoiled"
                   "puncher" "delivery" "puncher" "net" braaied_wors _ _ _)).
  - reflexivity.
  - vm_compute. discriminate.
  - vm_compute. discriminate.
Defined.

Lemma delete_menu_item_unknown db id :
  references_ok db → menu_items db !! id = None →
  delete_menu_item db id =
  (db, {| success := true; message := "Item deleted successfully" |}).
Proof.
  intros [Hoi Hsh] Hid.
  assert (Hunref : ∀ oi, oi ∈ order_items db → oi_menu_item_id oi ≠ id).
  { intros oi Hin Heq.
    apply (proj1 (Forall_forall _ _) Hoi) in Hin as [_ [x Hx]].
    rewrite Heq in Hx. by rewrite Hid in Hx. }
  rewrite (delete_menu_item_unreferenced _ _ Hunref). f_equal.
  destruct db; unfold set_menu_items; simpl in *. f_equal.
  - by apply delete_id.
  - apply filter_all. eapply Forall_impl; [exact Hsh|].
    intros sh [x Hx] Heq. rewrite Heq in Hx. by rewrite Hid in Hx.
Qed.

(** X14. Deleting an item that does not exist reports success: in a
    database without dangling references, [delete_menu_item] on an unknown
    id returns [success] true with 'Item deleted successfully' and changes
    nothing. *)
Theorem X14_delete_unknown_item db id :
  references_ok db → menu_items db !! id = None →
  delete_menu_item db id =
  (db, {| success := true; message := "Item deleted successfully" |}).
Proof. apply delete_menu_item_unknown. Qed.

Lemma X14_witness :
  delete_menu_item fresh_db 99 =
  (fresh_db, {| success := true; message := "Item deleted successfully" |}).
Proof.
  exact (X14_delete_unknown_item fresh_db 99 fresh_db_references_ok eq_refl).
Defined.

Lemma step_stock_nonneg db op :
  stock_nonneg db → within_stock db op → stock_nonneg (step db op).
Proof.
  intros Hdb Hop. destruct op; cbn [step within_stock] in *.
  - by apply create_order_db_stock_nonneg.
  - done.
  - simpl. apply map_Forall_insert_2; [done|exact Hdb].
  - intros i r. simpl. intros Hr.
    destruct (decide (item_id = i)) as [->|Hne].
    + rewrite lookup_alter_eq in Hr.
      destruct (menu_items db !! i) as [r0|] eqn:Hi; [|done].
      injection Hr as <-. simpl. by apply (Hdb i).
    + rewrite lookup_alter_ne in Hr by done. by apply (Hdb i).
  - by apply update_stock_stock_nonneg.
  - unfold delete_menu_item. case_bool_decide; [done|].
    intros i r. simpl. intros Hr.
    apply lookup_delete_Some in Hr as [_ Hr]. by apply (Hdb i).
Qed.

(** X15. Stock stays non-negative under every operation except the two
    that take a quantity on trust: an order that asks, of some item, for
    more than is in stock, and a new item with a negative initial stock.
    Stock adjustments, edits, completions and deletions keep it without
    condition. *)
Theorem X15_stock_nonneg_kept db op :
  stock_nonneg db → within_stock db op → stock_nonneg (step db op).
Proof. apply step_stock_nonneg. Qed.

Lemma X15_witness : stock_nonneg db_after_sale.
Proof.
  refine (X15_stock_nonneg_kept fresh_db
            (SubmitOrder 1000 2000 "Thabo" wors_cart 300 "cashier" "cash")
            fresh_db_stock_nonneg _).
  intros i r Hr. unfold sold, wors_cart. simpl. case_bool_decide as Hi.
  - subst i. vm_compute in Hr. injection Hr as <-. vm_compute. discriminate.
  - by apply (fresh_db_stock_nonneg i).
Defined.

(** ** Handlers *)

Lemma create_order_db_returns_or_unchanged
    db now_ts now_ready cn items total cu pm :
  (valid_cart db items ∧
   ∃ db' order, create_order_db db now_ts now_ready cn items total cu pm
                  = (db', Returned order)) ∨
  (¬ valid_cart db items ∧
   create_order_db db now_ts now_ready cn items total cu pm
     = (db, Raised TypeError)).
Proof.
  destruct (decide (valid_cart db items)) as [Hvalid|Hinvalid].
  - left. split; [done|].
    destruct (create_order_db_valid db now_ts now_ready cn items total cu pm
                Hvalid) as (db' & _ & _ & Hrun & _).
    eauto.
  - right. split; [done|]. by apply create_order_db_invalid.
Qed.

Lemma read_line_given raw cl : read_line raw = inl cl ↔ line_given raw cl.
Proof.
  unfold read_line, line_given. destruct raw as [i n q p s], cl; simpl.
  split.
  - intros H. destruct p, i, n, q; try discriminate H.
    by injection H as <- <- <- <- <-.
  - by intros (-> & -> & -> & -> & ->).
Qed.

(** On lines that arrive complete the loop is the loop of
    [create_order_db]. *)
Lemma create_order_lines_given oid raws lines :
  Forall2 line_given raws lines →
  ∀ db, create_order_lines oid raws db =
        match for_each (create_order_line oid) lines db with
        | Returned (_, db') => inl db'
        | Raised e => inr (UnhandledExn e)
        end.
Proof.
  induction 1 as [|raw cl raws lines Hcl _ IH]; intros db; [done|].
  apply read_line_given in Hcl.
  cbn [create_order_lines]. rewrite Hcl, for_each_cons.
  destruct (create_order_line oid cl db) as [[[] db']|e]; [apply IH|done].
Qed.

(** The loop ends without an exception only on lines that arrive
    complete. *)
Lemma create_order_lines_inl oid raws : ∀ db db',
  create_order_lines oid raws db = inl db' →
  ∃ lines, Forall2 line_given raws lines.
Proof.
  induction raws as [|raw raws IH]; intros db db' Hrun.
  - exists []. constructor.
  - cbn [create_order_lines] in Hrun.
    destruct (read_line raw) as [cl|u] eqn:Hcl; [|done].
    destruct (create_order_line oid cl db) as [[[] db1]|e]; [|done].
    destruct (IH _ _ Hrun) as (lines & Hlines).
    exists (cl :: lines). constructor; [by apply read_line_given|done].
Qed.

Lemma create_order_db_raw_given db now_ts now_ready cn raws lines total cu pm :
  Forall2 line_given raws lines →
  create_order_db_raw db now_ts now_ready cn raws (Some total) cu (Some pm) =
  match create_order_db db now_ts now_ready cn lines total cu pm with
  | (db', Returned order) => (db', inl order)
  | (db', Raised e) => (db', inr (UnhandledExn e))
  end.
Proof.
  intros Hlines. unfold create_order_db_raw, create_order_db.
  rewrite create_order_tx_unfold.
  destruct (insert_order _ db) as [oid db0] eqn:Hins. cbn [fst snd].
  rewrite (create_order_lines_given _ _ _ Hlines).
  destruct (for_each _ lines db0) as [[[] db']|e]; [|done].
  by destruct (orders db' !! oid).
Qed.

(** [create_order_db], on what the handler passes it, returns an order
    exactly for a total, a payment method and complete lines that name
    existing items, and then does what [create_order_db] does on those
    lines; in every other case it raises and the database is unchanged. *)
Lemma create_order_db_raw_cases db now_ts now_ready cn raws total cu pm :
  (∃ tot p lines db' order,
     total = Some tot ∧ pm = Some p ∧
     Forall2 line_given raws lines ∧ valid_cart db lines ∧
     create_order_db db now_ts now_ready cn lines tot cu p
       = (db', Returned order) ∧
     create_order_db_raw db now_ts now_ready cn raws total cu pm
       = (db', inl order)) ∨
  (¬ (is_Some total ∧ is_Some pm ∧
      ∃ lines, Forall2 line_given raws lines ∧ valid_cart db lines) ∧
   ∃ u, create_order_db_raw db now_ts now_ready cn raws total cu pm
          = (db, inr u)).
Proof.
  destruct total as [tot|];
    [|right; split; [by intros ([? ?] & _)|by eexists]].
  destruct pm as [p|];
    [|right; split; [by intros (_ & [? ?] & _)|by eexists]].
  destruct (create_order_db_raw db now_ts now_ready cn raws (Some tot) cu
              (Some p)) as [d [order|u]] eqn:Hraw.
  - left. assert (Hraw' := Hraw). unfold create_order_db_raw in Hraw'.
    destruct (insert_order _ db) as [oid db0].
    destruct (create_order_lines oid raws db0) as [d'|u] eqn:Hrun; [|done].
    destruct (create_order_lines_inl _ _ _ _ Hrun) as (lines & Hlines).
    rewrite (create_order_db_raw_given _ _ _ _ _ _ _ _ _ Hlines) in Hraw.
    destruct (create_order_db_returns_or_unchanged db now_ts now_ready cn
                lines tot cu p) as [[Hvalid (d1 & o1 & Hret)]|[_ Hret]];
      rewrite Hret in Hraw; [|done].
    injection Hraw as <- <-. by exists tot, p, lines, d1, o1.
  - right.
    assert (Hnot : ¬ ∃ lines, Forall2 line_given raws lines ∧
                              valid_cart db lines).
    { intros (lines & Hlines & Hvalid).
      rewrite (create_order_db_raw_given _ _ _ _ _ _ _ _ _ Hlines) in Hraw.
      destruct (create_order_db_valid db now_ts now_ready cn lines tot cu p
                  Hvalid) as (d1 & _ & _ & Hret & _).
      by rewrite Hret in Hraw. }
    split; [by intros (_ & _ & ?)|].
    exists u. f_equal. assert (Hraw' := Hraw).
    unfold create_order_db_raw in Hraw'.
    destruct (insert_order _ db) as [oid db0].
    destruct (create_order_lines oid raws db0) as [d'|u'] eqn:Hrun;
      [|by injection Hraw' as <- _].
    destruct (create_order_lines_inl _ _ _ _ Hrun) as (lines & Hlines).
    rewrite (create_order_db_raw_given _ _ _ _ _ _ _ _ _ Hlines) in Hraw.
    destruct (create_order_db_returns_or_unchanged db now_ts now_ready cn
                lines tot cu p) as [[Hvalid _]|[_ Hret]].
    + destruct Hnot. by exists lines.
    + rewrite Hret in Hraw. by injection Hraw as <- _.
Qed.

(** X16. POST /api/orders answers 200 exactly when the session is a
    cashier's, the customer name is not empty, a total is given, the
    payment method is absent or given (not [null]), and the cart is not
    empty, every line of it has its id, name, quantity and price present
    and not [null], and every line names an existing item; the database
    is then the one [create_order_db] leaves for these lines and the
    order returned is its order. Every other request (401, 400, or an
    exception left to Flask) leaves the database as it was. *)
Theorem X16_create_order db session now_ts now_ready data :
  let r := create_order db session now_ts now_ready data in
  ((∃ o, r.2 = inl {| status_code := 200; body := JSuccessOrder o |}) ↔
   unauthorized session "cashier" = false ∧
   falsy (or_customerName data) = false ∧
   is_Some (or_total data) ∧
   or_paymentMethod data ≠ Null ∧
   ∃ raws lines, or_items data = Some raws ∧ raws ≠ [] ∧
                 Forall2 line_given raws lines ∧ valid_cart db lines) ∧
  (∀ o, r.2 = inl {| status_code := 200; body := JSuccessOrder o |} →
   ∃ cn raws lines total pm,
     or_customerName data = Some cn ∧ or_items data = Some raws ∧
     Forall2 line_given raws lines ∧ or_total data = Some total ∧
     get_default (or_paymentMethod data) "cash" = Some pm ∧
     create_order_db db now_ts now_ready cn lines total
       (default "" (session !! "username")) pm
     = (r.1, Returned o)) ∧
  ((∃ o, r.2 = inl {| status_code := 200; body := JSuccessOrder o |}) ∨
   r.1 = db).
Proof.
  unfold create_order.
  destruct (unauthorized session "cashier");
    [split; [split; [by intros [? ?] | by intros [? _]]
            | split; [done | by right]]|].
  destruct (or_customerName data) as [cn|];
    [|split; [split; [by intros [? ?] | by intros (_ & ? & _)]
             | split; [done | by right]]].
  destruct (or_items data) as [[|item rest]|].
  - split; [split; [by intros [? ?]|] | split; [done | by right]].
    intros (_ & _ & _ & _ & raws & lines & [= <-] & ? & _). done.
  - simpl. case_bool_decide as Hcn.
    { split; [split; [by intros [? ?] | by intros (_ & ? & _)]
             | split; [done | by right]]. }
    destruct (create_order_db_raw_cases db now_ts now_ready cn (item :: rest)
                (or_total data) (default "" (session !! "username"))
                (get_default (or_paymentMethod data) "cash"))
      as [(tot & p & lines & db' & order & Htot & Hp & Hlines & Hvalid
            & Hret & ->)|[Hnot (u & ->)]]; simpl.
    + split; [|split; [|left; by eexists]].
      * split; [|by eexists]. intros _. split; [done|]. split; [done|].
        split; [rewrite Htot; by eexists|]. split.
        { intros Hnull. by rewrite Hnull in Hp. }
        by exists (item :: rest), lines.
      * intros o [= <-]. exists cn, (item :: rest), lines, tot, p.
        by repeat split.
    + split; [split; [by intros [? ?]|] | split; [done | by right]].
      intros (_ & _ & Htot & Hpm & raws & lines & [= <-] & _ & Hlines
              & Hvalid).
      destruct Hnot. split; [done|]. split; [|by exists lines].
      destruct (or_paymentMethod data); [by eexists|done|by eexists].
  - split; [split; [by intros [? ?]|] | split; [done | by right]].
    intros (_ & _ & _ & _ & raws & lines & ? & _). done.
Qed.

(** X17. POST /api/puncher/menu never gives its own 'Failed to add item'
    answer (500), since [add_menu_item] always returns the item. It
    answers 200 with the new item; or 400 or 401 with the database as it
    was; or, exactly when a puncher sends name, price and category with
    ['stock': null], the INSERT raises [IntegrityError], which the handler
    does not catch, and the database is as it was. *)
Theorem X17_puncher_add_item db session data :
  let r := puncher_add_item db session data in
  ((∃ i, r.2 = inl {| status_code := 200; body := JSuccessItem i |}) ∨
   ((∃ resp, r.2 = inl resp ∧
             (status_code resp = 400 ∨ status_code resp = 401)) ∧ r.1 = db) ∨
   (r.2 = inr IntegrityError ∧ r.1 = db)) ∧
  (r.2 = inr IntegrityError ↔
   unauthorized session "puncher" = false ∧ is_Some (ir_price data) ∧
   falsy (ir_name data) = false ∧ falsy (ir_category data) = false ∧
   ir_stock data = Null).
Proof.
  unfold puncher_add_item.
  destruct (unauthorized session "puncher").
  { split; [right; left; split; [eexists; split; [done|by right]|done]|].
    split; [done|by intros [? _]]. }
  destruct (ir_price data) as [price|]; cycle 1.
  { split; [right; left; split; [eexists; split; [done|by left]|done]|].
    split; [done|by intros (_ & [? ?] & _)]. }
  destruct (falsy (ir_name data)); simpl.
  { split; [right; left; split; [eexists; split; [done|by left]|done]|].
    split; [done|by intros (_ & _ & ? & _)]. }
  destruct (falsy (ir_category data)); simpl.
  { split; [right; left; split; [eexists; split; [done|by left]|done]|].
    split; [done|by intros (_ & _ & _ & ? & _)]. }
  destruct (ir_stock data); simpl.
  - rewrite lookup_insert_eq. simpl.
    split; [left; by eexists|]. split; [done|by intros (_ & _ & _ & _ & ?)].
  - split; [by right; right|]. split; [intros _; by repeat split; try eexists|done].
  - rewrite lookup_insert_eq. simpl.
    split; [left; by eexists|]. split; [done|by intros (_ & _ & _ & _ & ?)].
Qed.


(** X19. DELETE /api/puncher/menu/<item_id> from a puncher answers 400
    with the refusal when an order line names the item, and the database
    is as it was; otherwise it answers 200 with 'Item deleted
    successfully'. *)
Theorem X19_puncher_delete_item db session id :
  unauthorized session "puncher" = false →
  let r := puncher_delete_item db session id in
  ((∃ oi, oi ∈ order_items db ∧ oi_menu_item_id oi = id) →
   r = (db, (400, DeleteAnswer
              {| success := false;
                 message := "Cannot delete item that has been used in orders" |}))) ∧
  ((∀ oi, oi ∈ order_items db → oi_menu_item_id oi ≠ id) →
   r.2 = (200, DeleteAnswer
            {| success := true; message := "Item deleted successfully" |}) ∧
   r.1 = (delete_menu_item db id).1).
Proof.
  intros Hauth. unfold puncher_delete_item. rewrite Hauth. split.
  - intros (oi & Hin & Hid).
    by rewrite (delete_menu_item_referenced _ _ _ Hin Hid).
  - intros Hunref. by rewrite (delete_menu_item_unreferenced _ _ Hunref).
Qed.

(** ** Sessions *)

Lemma unauthorized_login session username role r :
  unauthorized (<["role" := role]> (<["username" := username]> session)) r
    = false ↔ r = role.
Proof.
  unfold unauthorized.
  rewrite lookup_insert_ne, !lookup_insert_eq by done.
  rewrite bool_decide_eq_false_2 by done. simpl.
  rewrite bool_decide_eq_false. split.
  - intros Hr. destruct (decide (r = role)) as [|Hne]; [done|].
    destruct Hr. congruence.
  - intros -> Hr. by apply Hr.
Qed.

Lemma find_user_Some db username password u :
  find_user db username password = Some u →
  u ∈ users db ∧ Some (u_username u) = username ∧
  Some (u_password u) = password.
Proof.
  unfold find_user. intros Hfind. apply find_some in Hfind as [Hin Hu].
  apply bool_decide_eq_true in Hu. split; [by apply list_elem_of_In|done].
Qed.

Lemma find_user_None db username password u :
  find_user db username password = None →
  u ∈ users db →
  ¬ (Some (u_username u) = username ∧ Some (u_password u) = password).
Proof.
  unfold find_user. intros Hfind Hin.
  apply list_elem_of_In in Hin.
  pose proof (find_none _ _ Hfind u Hin) as Hu. simpl in Hu.
  by apply bool_decide_eq_false in Hu.
Qed.

(** X20. POST /login succeeds exactly when some user has the name and the
    password given. On success the session carries that name and the
    role of a user with these credentials, and passes the role check of
    that role and of no other; on failure the answer is 401 and the
    session is as it was. *)
Theorem X20_login db session data :
  let r := login db session data in
  ((∃ u, u ∈ users db ∧ Some (u_username u) = lr_username data ∧
         Some (u_password u) = lr_password data) →
   ∃ u, u ∈ users db ∧ Some (u_username u) = lr_username data ∧
        Some (u_password u) = lr_password data ∧
        r.2 = (200, LoginSuccess (u_role u)) ∧
        r.1 !! "username" = Some (u_username u) ∧
        r.1 !! "role" = Some (u_role u) ∧
        ∀ role, unauthorized r.1 role = false ↔ role = u_role u) ∧
  ((∀ u, u ∈ users db →
         ¬ (Some (u_username u) = lr_username data ∧
            Some (u_password u) = lr_password data)) →
   r = (session, (401, LoginFailure "Invalid credentials"))).
Proof.
  unfold login. split.
  - intros (u0 & Hin0 & Hname0 & Hpw0).
    destruct (find_user db (lr_username data) (lr_password data)) as [u|]
      eqn:Hfind.
    + apply find_user_Some in Hfind as (Hin & Hname & Hpw).
      exists u. simpl. repeat split; try done.
      * by rewrite lookup_insert_ne, lookup_insert_eq.
      * by rewrite lookup_insert_eq.
      * by apply unauthorized_login.
      * by apply unauthorized_login.
    + by destruct (find_user_None _ _ _ u0 Hfind Hin0).
  - intros Hnone.
    destruct (find_user db (lr_username data) (lr_password data)) as [u|]
      eqn:Hfind; [|done].
    apply find_user_Some in Hfind as (Hin & Hname & Hpw).
    by destruct (Hnone u Hin).
Qed.

Lemma login_session db session data s' code role :
  login db session data = (s', (code, LoginSuccess role)) →
  ∀ r, unauthorized s' r = false ↔ r = role.
Proof.
  unfold login.
  destruct (find_user db (lr_username data) (lr_password data)) as [u|];
    [|done].
  intros [= <- _ <-]. apply unauthorized_login.
Qed.

(** What every handler does with a session that fails its role check. *)
Lemma refused_cashier session :
  unauthorized session "cashier" = true →
  ∀ db now_ts now_ready data,
    create_order db session now_ts now_ready data =
    (db, inl {| status_code := 401; body := JError "Unauthorized" |}).
Proof. intros Hs db now_ts now_ready data. unfold create_order. by rewrite Hs. Qed.

Lemma refused_kitchen session :
  unauthorized session "kitchen" = true →
  ∀ db now id,
    complete_order db session now id =
    (db, {| status_code := 401; body := JError "Unauthorized" |}).
Proof. intros Hs db now id. unfold complete_order. by rewrite Hs. Qed.

Lemma refused_puncher session :
  unauthorized session "puncher" = true →
  ∀ db item stock id,
    puncher_add_item db session item =
      (db, inl {| status_code := 401; body := JError "Unauthorized" |}) ∧
    puncher_update_item db session item id =
      (db, {| status_code := 401; body := JError "Unauthorized" |}) ∧
    puncher_update_stock db session stock id =
      (db, {| status_code := 401; body := JError "Unauthorized" |}) ∧
    puncher_delete_item db session id =
      (db, (401, DeleteError "Unauthorized")).
Proof.
  intros Hs db item stock id.
  unfold puncher_add_item, puncher_update_item, puncher_update_stock,
    puncher_delete_item.
  by rewrite Hs.
Qed.

Lemma not_false_true (b : bool) : ¬ (b = false) → b = true.
Proof. by destruct b. Qed.

(** X21. Roles are kept apart: with the session a successful login leaves,
    the handlers of every other role answer 401 and change nothing. A
    session that is no cashier's cannot create an order, one that is no
    kitchen's cannot complete one, one that is no puncher's cannot add,
    edit, restock or delete an item. *)
Theorem X21_role_separation db session data s' code role :
  login db session data = (s', (code, LoginSuccess role)) →
  (role ≠ "cashier" →
   ∀ d now_ts now_ready req,
     create_order d s' now_ts now_ready req =
     (d, inl {| status_code := 401; body := JError "Unauthorized" |})) ∧
  (role ≠ "kitchen" →
   ∀ d now id,
     complete_order d s' now id =
     (d, {| status_code := 401; body := JError "Unauthorized" |})) ∧
  (role ≠ "puncher" →
   ∀ d item stock id,
     puncher_add_item d s' item =
       (d, inl {| status_code := 401; body := JError "Unauthorized" |}) ∧
     puncher_update_item d s' item id =
       (d, {| status_code := 401; body := JError "Unauthorized" |}) ∧
     puncher_update_stock d s' stock id =
       (d, {| status_code := 401; body := JError "Unauthorized" |}) ∧
     puncher_delete_item d s' id = (d, (401, DeleteError "Unauthorized"))).
Proof.
  intros Hlogin. pose proof (login_session _ _ _ _ _ _ Hlogin) as Hs.
  split; [|split]; intros Hrole.
  - apply refused_cashier, not_false_true. intros H. by apply Hs in H.
  - apply refused_kitchen, not_false_true. intros H. by apply Hs in H.
  - apply refused_puncher, not_false_true. intros H. by apply Hs in H.
Qed.

(** X22. After /logout no handler acts: whatever the session was, with the
    cleared session every handler answers 401 and changes nothing. *)
Theorem X22_logout session :
  (∀ d now_ts now_ready req,
     create_order d (logout session) now_ts now_ready req =
     (d, inl {| status_code := 401; body := JError "Unauthorized" |})) ∧
  (∀ d now id,
     complete_order d (logout session) now id =
     (d, {| status_code := 401; body := JError "Unauthorized" |})) ∧
  (∀ d item stock id,
     puncher_add_item d (logout session) item =
       (d, inl {| status_code := 401; body := JError "Unauthorized" |}) ∧
     puncher_update_item d (logout session) item id =
       (d, {| status_code := 401; body := JError "Unauthorized" |}) ∧
     puncher_update_stock d (logout session) stock id =
       (d, {| status_code := 401; body := JError "Unauthorized" |}) ∧
     puncher_delete_item d (logout session) id =
       (d, (401, DeleteError "Unauthorized"))).
Proof.
  split; [|split].
  - by apply refused_cashier.
  - by apply refused_kitchen.
  - by apply refused_puncher.
Qed.

(** ** init_db *)

Lemma foldl_insert_menu_item_frame l : ∀ db,
  users (foldl (λ d r, (insert_menu_item r d).2) db l) = users db ∧
  orders (foldl (λ d r, (insert_menu_item r d).2) db l) = orders db ∧
  order_items (foldl (λ d r, (insert_menu_item r d).2) db l)
    = order_items db ∧
  stock_history (foldl (λ d r, (insert_menu_item r d).2) db l)
    = stock_history db.
Proof.
  induction l as [|r l IH]; intros db; [done|].
  cbn [foldl].
  destruct (IH (insert_menu_item r db).2) as (Hu & Ho & Hoi & Hsh).
  by rewrite Hu, Ho, Hoi, Hsh.
Qed.

Lemma foldl_insert_menu_item_nonempty l db :
  l ≠ [] → menu_items (foldl (λ d r, (insert_menu_item r d).2) db l) ≠ ∅.
Proof.
  destruct (decide (l = [])) as [|Hne]; [done|]. intros _.
  apply exists_last in Hne as (l' & r & ->).
  rewrite foldl_snoc. simpl. apply insert_non_empty.
Qed.

Lemma foldl_insert_user_frame (l : list (string * string * string)) : ∀ db,
  users db `prefix_of`
    users (foldl (λ d '(u, p, r), insert_user u p r d) db l) ∧
  menu_items (foldl (λ d '(u, p, r), insert_user u p r d) db l)
    = menu_items db ∧
  orders (foldl (λ d '(u, p, r), insert_user u p r d) db l) = orders db ∧
  order_items (foldl (λ d '(u, p, r), insert_user u p r d) db l)
    = order_items db ∧
  stock_history (foldl (λ d '(u, p, r), insert_user u p r d) db l)
    = stock_history db.
Proof.
  induction l as [|[[u p] r] l IH]; intros db; [done|].
  cbn [foldl].
  destruct (IH (insert_user u p r db)) as (Hpre & Hm & Ho & Hoi & Hsh).
  rewrite Hm, Ho, Hoi, Hsh. split; [|done].
  etrans; [|exact Hpre]. simpl. by apply prefix_app_r.
Qed.

Lemma init_db_unfold db :
  init_db db =
  if bool_decide (size (menu_items (init_users db)) = 0%nat) then
    foldl (λ d r, (insert_menu_item r d).2) (init_users db) default_menu
  else init_users db.
Proof. reflexivity. Qed.

Lemma init_users_puncher db :
  filter (λ u, u_role u = "puncher") (users (init_users db)) ≠ [].
Proof.
  unfold init_users. case_bool_decide as Hp.
  - simpl. rewrite filter_app, filter_cons_True by done.
    intros H. by apply app_eq_nil in H as [_ ?].
  - intros H. apply Hp. by rewrite H.
Qed.

Lemma insert_user_frame u p r db :
  users db `prefix_of` users (insert_user u p r db) ∧
  menu_items (insert_user u p r db) = menu_items db ∧
  orders (insert_user u p r db) = orders db ∧
  order_items (insert_user u p r db) = order_items db ∧
  stock_history (insert_user u p r db) = stock_history db.
Proof. split; [by apply prefix_app_r|done]. Qed.

Lemma init_users_frame db :
  users db `prefix_of` users (init_users db) ∧
  menu_items (init_users db) = menu_items db ∧
  orders (init_users db) = orders db ∧
  order_items (init_users db) = order_items db ∧
  stock_history (init_users db) = stock_history db.
Proof.
  unfold init_users.
  set (db1 := if bool_decide (length (users db) = 0%nat)
              then foldl (λ d '(u, p, r), insert_user u p r d) db default_users
              else db).
  assert (H1 : users db `prefix_of` users db1 ∧
               menu_items db1 = menu_items db ∧ orders db1 = orders db ∧
               order_items db1 = order_items db ∧
               stock_history db1 = stock_history db).
  { subst db1. destruct (bool_decide (length (users db) = 0%nat)); [|done].
    apply foldl_insert_user_frame. }
  destruct H1 as (Hpre & Hm & Ho & Hoi & Hsh).
  case_bool_decide; [|done].
  destruct (insert_user_frame "puncher" "stock123" "puncher" db1)
    as (Hpre' & -> & -> & -> & ->).
  split; [by etrans|done].
Qed.

Lemma init_users_id db :
  filter (λ u, u_role u = "puncher") (users db) ≠ [] → init_users db = db.
Proof.
  intros Hp. unfold init_users.
  rewrite (bool_decide_eq_false_2 (length (users db) = 0%nat)).
  - rewrite bool_decide_eq_false_2; [done|].
    intros H. by apply nil_length_inv in H.
  - intros H. apply nil_length_inv in H. by rewrite H in Hp.
Qed.

Lemma init_db_menu_nonempty db : menu_items (init_db db) ≠ ∅.
Proof.
  rewrite init_db_unfold. case_bool_decide as Hm.
  - by apply foldl_insert_menu_item_nonempty.
  - by apply map_size_non_empty_iff.
Qed.

Lemma init_db_users db : users (init_db db) = users (init_users db).
Proof.
  rewrite init_db_unfold. case_bool_decide; [|done].
  apply foldl_insert_menu_item_frame.
Qed.

(** X23. [init_db] is idempotent: run on a database it has already
    initialised (every later start of the application) it changes
    nothing. The first run must be one that does not raise on the UNIQUE
    user name. *)
Theorem X23_init_db_idempotent db :
  puncher_name_free db → init_db (init_db db) = init_db db.
Proof.
  intros _. rewrite (init_db_unfold (init_db db)).
  rewrite init_users_id
    by (rewrite init_db_users; apply init_users_puncher).
  rewrite bool_decide_eq_false_2; [done|].
  apply map_size_non_empty_iff, init_db_menu_nonempty.
Qed.

(** X24. Where it does not raise on the UNIQUE user name, [init_db] only
    adds what is missing: orders, order lines and
    stock history are untouched, the users already there stay (new ones
    come after them), a menu that is not empty is left exactly as it is,
    and afterwards there is a user with role 'puncher' and the menu is not
    empty. *)
Theorem X24_init_db_keeps_data db :
  puncher_name_free db →
  orders (init_db db) = orders db ∧
  order_items (init_db db) = order_items db ∧
  stock_history (init_db db) = stock_history db ∧
  (∃ new, users (init_db db) = users db ++ new) ∧
  (menu_items db ≠ ∅ → menu_items (init_db db) = menu_items db) ∧
  (∃ u, u ∈ users (init_db db) ∧ u_role u = "puncher") ∧
  menu_items (init_db db) ≠ ∅.
Proof.
  intros _.
  destruct (init_users_frame db) as (Hpre & Hm & Ho & Hoi & Hsh).
  assert (Hframe : orders (init_db db) = orders db ∧
                   order_items (init_db db) = order_items db ∧
                   stock_history (init_db db) = stock_history db).
  { rewrite init_db_unfold. case_bool_decide; [|done].
    destruct (foldl_insert_menu_item_frame default_menu (init_users db))
      as (_ & -> & -> & ->).
    done. }
  destruct Hframe as (Hfo & Hfoi & Hfsh).
  split; [exact Hfo|]. split; [exact Hfoi|]. split; [exact Hfsh|].
  split; [rewrite init_db_users; exact Hpre|].
  split.
  { intros Hne. rewrite init_db_unfold, bool_decide_eq_false_2; [done|].
    rewrite Hm. by apply map_size_non_empty_iff. }
  split; [|apply init_db_menu_nonempty].
  rewrite init_db_users.
  pose proof (init_users_puncher db) as Hp.
  destruct (filter _ (users (init_users db))) as [|u l] eqn:Hf; [done|].
  assert (Hu : u ∈ filter (λ u, u_role u = "puncher") (users (init_users db)))
    by (rewrite Hf; constructor).
  apply list_elem_of_filter in Hu as [Hrole Hin]. eauto.
Qed.

Lemma empty_db_puncher_name_free : puncher_name_free empty_db.
Proof. intros _. constructor. Qed.

Lemma X23_witness : init_db fresh_db = fresh_db.
Proof. exact (X23_init_db_idempotent empty_db empty_db_puncher_name_free). Defined.

Lemma X24_witness :
  ∃ u, u ∈ users fresh_db ∧ u_role u = "puncher".
Proof.
  destruct (X24_init_db_keeps_data empty_db empty_db_puncher_name_free)
    as (_ & _ & _ & _ & _ & Hu & _).
  exact Hu.
Defined.

(** ** Witnesses of the handler and session theorems *)

Lemma wors_cart_valid : valid_cart fresh_db wors_cart.
Proof.
  apply Forall_cons. split; [|constructor].
  vm_compute. eexists. reflexivity.
Qed.

Lemma X16_witness :
  ∃ o,
    (create_order fresh_db (session_of "cashier" "cashier") 1000 2000
       {| or_customerName := Some "Thabo";
          or_items := Some (raw_line <$> wors_cart);
          or_total := Some 300%Q; or_paymentMethod := Absent |}).2
    = inl {| status_code := 200; body := JSuccessOrder o |}.
Proof.
  apply (X16_create_order fresh_db (session_of "cashier" "cashier") 1000 2000
           {| or_customerName := Some "Thabo";
              or_items := Some (raw_line <$> wors_cart);
              or_total := Some 300%Q; or_paymentMethod := Absent |}).
  split; [vm_compute; reflexivity|]. split; [reflexivity|].
  split; [by eexists|]. split; [discriminate|].
  exists (raw_line <$> wors_cart), wors_cart.
  split; [reflexivity|]. split; [discriminate|].
  split; [|exact wors_cart_valid].
  repeat constructor.
Defined.

Lemma X17_witness :
  (puncher_add_item fresh_db (session_of "puncher" "puncher")
     {| ir_name := Some "Pap"; ir_price := Some 25%Q;
        ir_category := Some "Sides"; ir_stock := Null;
        ir_requiresSide := None |}).2
  = inr IntegrityError.
Proof.
  apply (X17_puncher_add_item fresh_db (session_of "puncher" "puncher")
           {| ir_name := Some "Pap"; ir_price := Some 25%Q;
              ir_category := Some "Sides"; ir_stock := Null;
              ir_requiresSide := None |}).
  split; [vm_compute; reflexivity|]. split; [by eexists|].
  split; [reflexivity|]. split; reflexivity.
Defined.


Lemma X19_witness :
  puncher_delete_item db_with_pap (session_of "puncher" "puncher") 7
    = (db_with_pap,
       (400, DeleteAnswer
          {| success := false;
             message := "Cannot delete item that has been used in orders" |})).
Proof.
  destruct (X19_puncher_delete_item db_with_pap
              (session_of "puncher" "puncher") 7) as [Hrefused _];
    [vm_compute; reflexivity|].
  apply Hrefused. eexists. split; [vm_compute; constructor|reflexivity].
Defined.

Lemma X20_witness :
  ∃ u, (login fresh_db ∅ {| lr_username := Some "cashier";
                            lr_password := Some "cash123" |}).2
         = (200, LoginSuccess (u_role u)) ∧
       u_username u = "cashier".
Proof.
  destruct (X20_login fresh_db ∅ {| lr_username := Some "cashier";
                                    lr_password := Some "cash123" |})
    as [Hsuccess _].
  destruct Hsuccess as (u & _ & Hname & _ & Hret & _).
  { eexists. split; [vm_compute; constructor|]. split; reflexivity. }
  exists u. split; [exact Hret|]. by injection Hname.
Defined.

Lemma X21_witness :
  puncher_update_stock fresh_db
    (login fresh_db ∅ {| lr_username := Some "cashier";
                         lr_password := Some "cash123" |}).1
    {| quantityChange := Some 1000; notes := None |} 7
  = (fresh_db, {| status_code := 401; body := JError "Unauthorized" |}).
Proof.
  destruct (X21_role_separation fresh_db ∅
              {| lr_username := Some "cashier"; lr_password := Some "cash123" |}
              (login fresh_db ∅ {| lr_username := Some "cashier";
                                   lr_password := Some "cash123" |}).1
              200 "cashier") as (_ & _ & Hpuncher);
    [vm_compute; reflexivity|].
  destruct (Hpuncher ltac:(discriminate) fresh_db
              {| ir_name := None; ir_price := None; ir_category := None;
                 ir_stock := Absent; ir_requiresSide := None |}
              {| quantityChange := Some 1000; notes := None |} 7)
    as (_ & _ & Hstock & _).
  exact Hstock.
Defined.

(** X25. In every state the application reaches from a new database file
    (the default database of [init_db], then any sequence of operations)
    no order line or history row dangles, the ledger reconciles with the
    stock column, every history row is balanced, and every order is
    'pending' without completion time or 'ready' with one. *)
Theorem X25_reachable_states ops :
  references_ok (run fresh_db ops) ∧
  ledger_reconciled (run fresh_db ops) ∧
  Forall balanced (stock_history (run fresh_db ops)) ∧
  lifecycle_ok (run fresh_db ops).
Proof.
  split; [apply run_references_ok, fresh_db_references_ok|].
  split; [apply run_reconciled, fresh_db_reconciled|].
  split; [by apply run_history_balanced|].
  apply run_lifecycle_ok, fresh_db_lifecycle_ok.
Qed.

(** X26. PUT /api/puncher/stock/<item_id> answers 200 exactly when the
    session is a puncher's, a quantity change is given, the item exists
    and its stock plus the change is not negative. Every other request
    (401, 400) leaves the database as it was. *)
Theorem X26_puncher_update_stock db session data id :
  let r := puncher_update_stock db session data id in
  ((∃ i, r.2 = {| status_code := 200; body := JSuccessItem i |}) ↔
   unauthorized session "puncher" = false ∧
   ∃ q item, quantityChange data = Some q ∧
             menu_items db !! id = Some item ∧ 0 ≤ mi_stock item + q) ∧
  ((∃ i, r.2 = {| status_code := 200; body := JSuccessItem i |}) ∨ r.1 = db).
Proof.
  unfold puncher_update_stock.
  destruct (unauthorized session "puncher");
    [split; [split; [by intros [? ?] | by intros [? _]] | by right]|].
  destruct (quantityChange data) as [q|];
    [|split; [split; [by intros [? ?] | by intros (_ & ? & ? & ? & _)]
             | by right]].
  destruct (menu_items db !! id) as [item|] eqn:Hid.
  - destruct (decide (mi_stock item + q < 0)) as [Hneg|Hok].
    + rewrite (update_stock_underflow _ _ _ _ _ _ Hid Hneg).
      split; [split; [by intros [? ?]|] | by right].
      intros (_ & q' & item' & [= <-] & [= <-] & ?). lia.
    + rewrite (update_stock_accepted _ _ _ _ _ _ Hid) by lia.
      split; [|left; by eexists]. split; [|by eexists].
      intros _. split; [done|]. exists q, item. split; [done|]. split; [done|lia].
  - rewrite (update_stock_missing _ _ _ _ _ Hid).
    split; [split; [by intros [? ?]|] | by right].
    intros (_ & q' & item' & _ & ? & _). done.
Qed.

(** X27. PUT /api/orders/<order_id>/complete answers 200 exactly when the
    session is a kitchen's and the order exists. Every other request (401,
    404) leaves the database as it was. *)
Theorem X27_complete_order db session now id :
  let r := complete_order db session now id in
  ((∃ o, r.2 = {| status_code := 200; body := JSuccessOrder o |}) ↔
   unauthorized session "kitchen" = false ∧ is_Some (orders db !! id)) ∧
  ((∃ o, r.2 = {| status_code := 200; body := JSuccessOrder o |}) ∨ r.1 = db).
Proof.
  unfold complete_order.
  destruct (unauthorized session "kitchen");
    [split; [split; [by intros [? ?] | by intros [? _]] | by right]|].
  destruct (orders db !! id) as [o|] eqn:Hid.
  - rewrite (complete_order_db_found _ _ _ _ Hid).
    split; [|left; by eexists]. split; [|by eexists].
    intros _. split; [done|by eexists].
  - rewrite (complete_order_db_missing _ _ _ Hid).
    split; [split; [by intros [? ?]|] | by right].
    by intros (_ & ? & ?).
Qed.

Lemma X26_witness :
  ∃ i, (puncher_update_stock fresh_db (session_of "puncher" "puncher")
          {| quantityChange := Some 20; notes := Some "weekly delivery" |} 7).2
       = {| status_code := 200; body := JSuccessItem i |}.
Proof.
  apply (X26_puncher_update_stock fresh_db (session_of "puncher" "puncher")
           {| quantityChange := Some 20; notes := Some "weekly delivery" |} 7).
  split; [vm_compute; reflexivity|]. exists 20, braaied_wors.
  split; [reflexivity|]. split; [reflexivity|]. vm_compute. discriminate.
Defined.

Lemma X27_witness :
  ∃ o, (complete_order db_after_sale (session_of "kitchen" "kitchen") 5000 1).2
       = {| status_code := 200; body := JSuccessOrder o |}.
Proof.
  apply (X27_complete_order db_after_sale (session_of "kitchen" "kitchen")
           5000 1).
  split; [vm_compute; reflexivity|]. vm_compute. by eexists.
Defined.
